(** * P9 whisky dashboard (app.py): loader, filter pass and page script

    The page reads the table [market_prices] of a local SQLite file into a
    pandas DataFrame, lets the user narrow it down with four sidebar
    widgets and shows three metrics and a table.  This file embeds the
    script in Rocq and proves the properties stated about it.

    Conventions of the embedding:
    - a DataFrame object lives in a heap and holds the list of its rows,
      in index order; a boolean mask is a row predicate and [frame[mask]]
      is a new object with the rows the mask accepts;
    - text columns hold strings of code points below 256, one [ascii] per
      character, and [price] holds integers (no NULLs); the data model
      has prices from 0 upwards;
    - an exception is identified with its message, [str(e)];
    - [Series.max] on the prices and [Series.mean] work on integers and
      the mean is an exact rational; [Series.min] and [Series.max] on the
      dates skip nulls, or raise on a column that holds both dates and
      nulls, as the version of pandas has it;
    - [Series.str.contains] compiles its pattern whatever the rows, also
      on a frame without rows;
    - a metric carries the number it shows, not the formatted text;
    - a widget call renders the widget and hands back the user's entry,
      or its [value=] default when the user has made none; the slider
      raises when its two bounds are equal, as [st.slider] does;
    - what differs between versions of pandas is an interface
      ([Pandas]): the regular-expression engine behind
      [Series.str.contains], the parser behind [pd.to_datetime], which
      may hand back a date, NaT or an exception, and what [Series.min]
      does with a column of dates and nulls.  The general results hold
      for every instance; the concrete runs use a model of Python's [re]
      on a fragment of the pattern syntax ([PyRe]), the reading of the
      format directives ([to_date]) and reductions that skip nulls.

    The first part has the definitions, the second part the proofs. *)

From Stdlib Require Import ZArith QArith Qround String Ascii.
From stdpp Require Import base option list sorting gmap strings pretty.

Local Open Scope string_scope.
Local Open Scope list_scope.
Local Open Scope Z_scope.

(** ** Calendar dates ([datetime.date]) *)

Record date := Date { year : Z; month : Z; day : Z }.

(** [a <= b] on dates: lexicographic on (year, month, day). *)
Definition date_leb (a b : date) : bool :=
  (year a <? year b)
  || ((year a =? year b)
      && ((month a <? month b)
          || ((month a =? month b) && (day a <=? day b)))).

Definition date_min (a b : date) : date := if date_leb a b then a else b.
Definition date_max (a b : date) : date := if date_leb a b then b else a.

Definition is_leap (y : Z) : bool :=
  ((y mod 4 =? 0) && negb (y mod 100 =? 0)) || (y mod 400 =? 0).

Definition days_in_month (y m : Z) : Z :=
  if m =? 2 then (if is_leap y then 29 else 28)
  else if (m =? 4) || (m =? 6) || (m =? 9) || (m =? 11) then 30
  else 31.

(** ** Characters and strings *)

Definition code (c : ascii) : Z := Z.of_N (N_of_ascii c).

Definition digit_of (c : ascii) : option Z :=
  if (48 <=? code c) && (code c <=? 57) then Some (code c - 48) else None.

(** Decimal value of a run of digits; [None] if some character is not one. *)
Fixpoint number_from (acc : Z) (l : list ascii) : option Z :=
  match l with
  | [] => Some acc
  | c :: l' =>
      match digit_of c with
      | Some d => number_from (10 * acc + d) l'
      | None => None
      end
  end.

(** Fields of [l] between occurrences of [sep]. *)
Fixpoint split_on (sep : ascii) (l : list ascii) : list (list ascii) :=
  match l with
  | [] => [[]]
  | c :: l' =>
      if Ascii.eqb c sep then [] :: split_on sep l'
      else match split_on sep l' with
           | f :: fs => (c :: f) :: fs
           | [] => [[c]]
           end
  end.

(** ** Parsing [post_date] with the format [%Y/%m/%d]

    [%Y] is four digits, [%m] is [1[0-2]|0[1-9]|[1-9]], [%d] is
    [3[01]|[12]\d|0[1-9]|[1-9]| [1-9]]; the whole string has to match and
    the triple has to be a calendar date.  [to_date] is this reading of
    the directives, with [None] for a string that does not fit.  What
    [pd.to_datetime] makes of a string beyond that depends on the version
    of pandas (see [Pandas] below): 2.3.3 keeps the dates from 1677-09-22
    to 2262-04-11 and gives NaT outside, 3.1.0 raises on the year 0000. *)

Definition parse_year (f : list ascii) : option Z :=
  match f with
  | [_; _; _; _] => number_from 0 f
  | _ => None
  end.

Definition parse_month (f : list ascii) : option Z :=
  match f with
  | [_] | [_; _] =>
      m ← number_from 0 f;
      if (1 <=? m) && (m <=? 12) then Some m else None
  | _ => None
  end.

Definition parse_day (f : list ascii) : option Z :=
  match f with
  | [_] | [_; _] =>
      d ← number_from 0 (match f with [" "%char; c] => [c] | _ => f end);
      if (1 <=? d) && (d <=? 31) then Some d else None
  | _ => None
  end.

Definition to_date (s : string) : option date :=
  match split_on "/"%char (list_ascii_of_string s) with
  | [fy; fm; fd] =>
      y ← parse_year fy;
      m ← parse_month fm;
      d ← parse_day fd;
      if (1 <=? y) && (d <=? days_in_month y m) then Some (Date y m d)
      else None
  | _ => None
  end.

(** ** The store and the rows read from it *)

(** A row of [market_prices]; [id] is the primary key. *)
Record DbRow := {
  id : Z;
  db_post_date : string;
  db_title : string;
  db_author : string;
  db_product_name : string;
  db_price : Z;
  db_link : string
}.

(** What [sqlite3.connect] and [pd.read_sql_query] meet: a failure with
    its message, or the table. *)
Inductive database :=
  | Unavailable (msg : string)
  | Table (t : list DbRow).

(** A row of the DataFrame returned by [load_data]: the six selected
    columns and the derived [post_date_dt]. *)
Record Row := {
  post_date : string;
  title : string;
  author : string;
  product_name : string;
  price : Z;
  link : string;
  post_date_dt : option date
}.

Definition exn := string.

(** ** What the script asks of pandas

    [Series.str.contains(pat, case=False)] compiles [pat] once with
    [re.IGNORECASE] and keeps the values in which the compiled pattern is
    found ([regex=True] is the default).  Compiling raises on a malformed
    pattern.

    [pd.to_datetime(col, format='%Y/%m/%d', errors='coerce')] followed by
    [.dt.date] gives, for one value of the column, a date or NaT
    ([None]), or raises: [errors='coerce'] turns the failures of the
    parser into NaT, but an exception can still escape it.

    [Series.min()] and [Series.max()] on the column of dates skip the
    NaT in pandas 3.1.0; in pandas 2.3.3 they raise when the column holds
    both dates and NaT.  [mixed_dates_error] is the exception, if there
    is one. *)

Class Pandas := {
  regex : Type;
  re_compile : string → exn + regex;
  re_search : regex → string → bool;
  to_datetime : string → exn + option date;
  mixed_dates_error : option exn
}.

Definition str_contains `{Pandas} (pat : string) : exn + (string → bool) :=
  match re_compile pat with
  | inl e => inl e
  | inr r => inr (re_search r)
  end.

(** The exception, if any, that [pd.to_datetime] raises on a column: that
    of the first value it raises on. *)
Fixpoint to_datetime_error `{Pandas} (col : list string) : option exn :=
  match col with
  | [] => None
  | s :: col' =>
      match to_datetime s with
      | inl e => Some e
      | inr _ => to_datetime_error col'
      end
  end.

(** ** Loading *)

(** [ORDER BY id DESC]. *)
Definition newer_first (a b : DbRow) : Prop := id b ≤ id a.

#[global] Instance newer_first_dec : RelDecision newer_first :=
  λ a b, decide (id b ≤ id a).

Definition order_by_id_desc (t : list DbRow) : list DbRow :=
  merge_sort newer_first t.

(** The selected columns of a table row, with [post_date_dt] derived (the
    value is only used when [pd.to_datetime] has not raised). *)
Definition select_row `{Pandas} (r : DbRow) : Row :=
  {| post_date := db_post_date r;
     title := db_title r;
     author := db_author r;
     product_name := db_product_name r;
     price := db_price r;
     link := db_link r;
     post_date_dt := match to_datetime (db_post_date r) with
                     | inr d => d
                     | inl _ => None
                     end |}.

(** Lines 14 to 24.  The query gives the rows by descending [id];
    [pd.to_datetime] then works on the whole [post_date] column, so an
    exception on one value is an exception of the load. *)
Definition load_data `{Pandas} (db : database) : exn + list Row :=
  match db with
  | Unavailable msg => inl msg
  | Table t =>
      let selected := order_by_id_desc t in
      match to_datetime_error (db_post_date <$> selected) with
      | Some e => inl e
      | None => inr (select_row <$> selected)
      end
  end.

(** ** Series reductions *)

Definition notnull {A} (x : option A) : bool :=
  match x with Some _ => true | None => false end.

(** The smallest and the largest date of a column, nulls skipped: a null
    result when nothing is left. *)
Definition dates_min (col : list (option date)) : option date :=
  match omap (λ x, x) col with
  | [] => None
  | d :: ds => Some (foldl date_min d ds)
  end.

Definition dates_max (col : list (option date)) : option date :=
  match omap (λ x, x) col with
  | [] => None
  | d :: ds => Some (foldl date_max d ds)
  end.

(** The exception of [Series.min()] or [Series.max()] on a column of
    dates, if it raises: the column holds both dates and nulls and this
    pandas raises on such a column. *)
Definition reduction_error `{Pandas} (col : list (option date)) : option exn :=
  if existsb notnull col && negb (forallb notnull col) then mixed_dates_error
  else None.

(** [Series.min()] and [Series.max()] on a column of dates. *)
Definition series_min `{Pandas} (col : list (option date)) : exn + option date :=
  match reduction_error col with
  | Some e => inl e
  | None => inr (dates_min col)
  end.

Definition series_max `{Pandas} (col : list (option date)) : exn + option date :=
  match reduction_error col with
  | Some e => inl e
  | None => inr (dates_max col)
  end.

Definition prices_max (col : list Z) : option Z :=
  match col with
  | [] => None
  | p :: ps => Some (foldl Z.max p ps)
  end.

Definition prices_sum (col : list Z) : Z := foldr Z.add 0 col.

Definition prices_mean (col : list Z) : option Q :=
  match col with
  | [] => None
  | _ :: _ => Some (prices_sum col # Pos.of_nat (length col))
  end.

(** [int(x)] on a float: truncation toward zero. *)
Definition py_int (x : Q) : Z :=
  if Qle_bool 0 x then Qfloor x else Qceiling x.

Definition nan_to_int : exn := "cannot convert float NaN to integer".

(** ** Masks of the filter pass *)

(** [col >= start] and [col <= end] on a column of dates: a null entry
    compares false with everything. *)
Definition date_ge (x : option date) (d : date) : bool :=
  match x with Some v => date_leb d v | None => false end.

Definition date_le (x : option date) (d : date) : bool :=
  match x with Some v => date_leb v d | None => false end.

Definition mask_date (start_date end_date : date) (r : Row) : bool :=
  date_ge (post_date_dt r) start_date && date_le (post_date_dt r) end_date.

Definition mask_price (price_range : Z * Z) (r : Row) : bool :=
  (price_range.1 <=? price r) && (price r <=? price_range.2).

(** ** Page elements and user input *)

Inductive element :=
  | ETitle (body : string)
  | EMarkdown (body : string)
  | ESidebarHeader (body : string)
  | ETextInput (label : string)
  | EDateInput (label : string) (value : date * date) (min_value max_value : date)
  | ESlider (label : string) (min_value max_value : Z) (value : Z * Z) (step : Z)
  | EColumns (n : Z)
  | EMetric (label : string) (value : Z)
  | ESubheader (body : string)
  | EDataframe (rows : list Row)
  | EWarning (body : string)
  | EError (body : string)
  | ECaption (body : string).

(** What the user has entered in the sidebar: the two text boxes, and the
    selections of the date picker and of the slider ([None]: the widget is
    left at its [value=] default). *)
Record UI := {
  ui_keyword : string;
  ui_author : string;
  ui_dates : option (list date);
  ui_prices : option (Z * Z)
}.

(** ** The script monad: DataFrame objects, rendered elements, exceptions *)

Definition loc := positive.

Record state := State {
  heap : gmap loc (list Row);
  out : list element
}.

Definition M (A : Type) : Type := state → (exn + A) * state.

#[global] Instance M_ret : MRet M := λ A a s, (inr a, s).

#[global] Instance M_bind : MBind M := λ A B k m s,
  match m s with
  | (inr a, s') => k a s'
  | (inl e, s') => (inl e, s')
  end.

Definition raise {A} (e : exn) : M A := λ s, (inl e, s).

Definition lift {A} (x : exn + A) : M A :=
  match x with inl e => raise e | inr a => mret a end.

Definition try_except (m : M unit) (handler : exn → M unit) : M unit := λ s,
  match m s with
  | (inr a, s') => (inr a, s')
  | (inl e, s') => handler e s'
  end.

Definition emit (e : element) : M unit := λ s,
  (inr (), State (heap s) (out s ++ [e])).

(** A new DataFrame object. *)
Definition new_frame (f : list Row) : M loc := λ s,
  let l := fresh (dom (heap s)) in
  (inr l, State (<[l:=f]> (heap s)) (out s)).

Definition frame (l : loc) : M (list Row) := λ s, (inr (heap s !!! l), s).

(** [df.copy()] *)
Definition copy (l : loc) : M loc := f ← frame l; new_frame f.

(** [df[mask]]: a new object with the rows the mask accepts. *)
Definition getitem (l : loc) (mask : Row → bool) : M loc :=
  f ← frame l; new_frame (filter (λ r, mask r) f).

(** [df[col].str.contains(pat, case=False)] *)
Definition contains `{Pandas} (col : Row → string) (pat : string)
    : M (Row → bool) :=
  f ← lift (str_contains pat); mret (λ r, f (col r)).

(** ** Widgets *)

Definition text_input (label typed : string) : M string :=
  emit (ETextInput label);; mret typed.

Definition date_input (label : string) (value : date * date)
    (min_value max_value : date) (pick : option (list date)) : M (list date) :=
  emit (EDateInput label value min_value max_value);;
  mret (match pick with Some sel => sel | None => [value.1; value.2] end).

Definition line_feed : string := String (ascii_of_N 10) "".

(** The message of the [StreamlitAPIException] of a slider whose bounds
    are equal. *)
Definition slider_bounds_error (min_value max_value : Z) : exn :=
  "Slider `min_value` must be less than the `max_value`." +:+ line_feed
  +:+ "The values were " +:+ pretty min_value +:+ " and "
  +:+ pretty max_value +:+ ".".

(** [st.slider] with a pair as [value]: it raises when [min_value] and
    [max_value] are equal, before anything is rendered.  (With
    [max_value] below [min_value], which takes a negative price, the
    framework first adjusts the bounds; the script is modelled for the
    prices of the data model, from 0 upwards.) *)
Definition slider (label : string) (min_value max_value : Z) (value : Z * Z)
    (step : Z) (pick : option (Z * Z)) : M (Z * Z) :=
  if bool_decide (min_value = max_value) then
    raise (slider_bounds_error min_value max_value)
  else
    emit (ESlider label min_value max_value value step);;
    mret (match pick with Some sel => sel | None => value end).

(** ** The script *)

(** [len(df)] *)
Definition len {A} (l : list A) : Z := Z.of_nat (length l).

Definition price_cap : Z := 100000.

Definition error_prefix : string := "系統錯誤，請確認資料庫狀態。錯誤訊息: ".
Definition rule : string := "---".

Definition table_title (keyword author_keyword : string) : string :=
  let t := "📋 最新報價清單" in
  let t := if bool_decide (keyword ≠ "") then t +:+ " | 關鍵字: " +:+ keyword else t in
  if bool_decide (author_keyword ≠ "") then t +:+ " | 賣家: " +:+ author_keyword else t.

(** The variables of the script when the [try] block is left normally,
    with the three numbers put in the metrics and the frame handed to the
    table. *)
Record outcome := Outcome {
  v_df : loc;
  v_keyword : string;
  v_author_keyword : string;
  v_date_range : list date;
  v_price_range : Z * Z;
  v_filtered_df : loc;
  total_count : Z;
  filtered_count : Z;
  average_price : Z;
  rows : list Row
}.

Section Script.
Context `{Pandas}.

(** Lines 31 to 136: the body of the [try] block.  The reductions are
    taken under guards that make their series non-empty, so their [None]
    branches are not reached ([body_spec] below does not have them). *)
Definition body (db : database) (ui : UI) : M outcome :=
  df ← (loaded ← lift (load_data db); new_frame loaded);
  emit (ESidebarHeader "🔍 綜合篩選條件");;
  keyword ← text_input "🥃 關鍵字搜尋 (酒名/標題)" (ui_keyword ui);
  author_keyword ← text_input "👤 賣家帳號搜尋" (ui_author ui);
  date_range ←
    (f ← frame df;
     if negb (bool_decide (f = [])) && existsb notnull (post_date_dt <$> f) then
       min_date ← lift (series_min (post_date_dt <$> f));
       max_date ← lift (series_max (post_date_dt <$> f));
       match min_date, max_date with
       | Some min_date, Some max_date =>
           date_input "📅 發文日期範圍" (min_date, max_date) min_date max_date
             (ui_dates ui)
       | _, _ => mret []
       end
     else mret []);
  price_range ←
    (f ← frame df;
     if negb (bool_decide (f = [])) then
       db_max_price ←
         match prices_max (price <$> f) with
         | Some m => mret m
         | None => raise nan_to_int
         end;
       let slider_max := Z.min db_max_price price_cap in
       slider "💰 價格區間" 0 slider_max (0, slider_max) 100 (ui_prices ui)
     else mret (0, 0));
  filtered_df ← copy df;
  filtered_df ←
    (if bool_decide (keyword ≠ "") then
       mask_keyword ←
         (in_product_name ← contains product_name keyword;
          in_title ← contains title keyword;
          mret (λ r, in_product_name r || in_title r));
       getitem filtered_df mask_keyword
     else mret filtered_df);
  filtered_df ←
    (if bool_decide (author_keyword ≠ "") then
       in_author ← contains author author_keyword;
       getitem filtered_df in_author
     else mret filtered_df);
  filtered_df ←
    match date_range with
    | [start_date; end_date] =>
        getitem filtered_df (mask_date start_date end_date)
    | _ => mret filtered_df
    end;
  filtered_df ←
    (f ← frame df;
     if negb (bool_decide (f = [])) then getitem filtered_df (mask_price price_range)
     else mret filtered_df);
  emit (EColumns 3);;
  f ← frame df;
  emit (EMetric "📦 資料庫總筆數" (len f));;
  g ← frame filtered_df;
  emit (EMetric "🔍 搜尋結果" (len g));;
  avg_price ←
    (if negb (bool_decide (g = [])) then
       avg_price ←
         match prices_mean (price <$> g) with
         | Some m => mret (py_int m)
         | None => raise nan_to_int
         end;
       emit (EMetric "💰 平均行情" avg_price);; mret avg_price
     else emit (EMetric "💰 平均行情" 0);; mret 0);
  emit (ESubheader (table_title keyword author_keyword));;
  (if negb (bool_decide (g = [])) then emit (EDataframe g)
   else emit (EWarning "⚠️ 查無資料！請嘗試放寬篩選條件（例如擴大日期範圍或清空關鍵字）。"));;
  mret (Outcome df keyword author_keyword date_range price_range filtered_df
          (len f) (len g) avg_price g).

(** The whole page: heading, the guarded body, footer. *)
Definition page (db : database) (ui : UI) : M unit :=
  emit (ETitle "🥃 P9 威士忌行情監控系統");;
  emit (EMarkdown rule);;
  try_except (body db ui;; mret ())
    (λ e, emit (EError (error_prefix +:+ e)));;
  emit (EMarkdown rule);;
  emit (ECaption "資料來源：P9 品酒網 | 本系統由 Python 自動化爬蟲生成").

Definition start : state := State ∅ [].

(** Elements on the page after one run. *)
Definition render (db : database) (ui : UI) : list element :=
  out (page db ui start).2.
End Script.

(** ** A model of Python's [re] on a fragment of the pattern syntax

    Characters are code points below 256, one [ascii] each.  The fragment
    has the patterns made of ordinary 7-bit characters and [.], and the
    patterns that start with a repetition sign, which [re.compile]
    rejects.  Every other pattern is handed to another engine. *)

Module PyRe.

Inductive atom :=
  | Lit (c : ascii)
  | AnyChar.

Definition special (c : ascii) : bool :=
  bool_decide (c ∈ list_ascii_of_string ".^$*+?{}[]\|()").

Definition repeat_sign (c : ascii) : bool :=
  bool_decide (c ∈ list_ascii_of_string "*+?").

(** Case folding of [re.IGNORECASE] on a 7-bit character. *)
Definition lower (c : ascii) : ascii :=
  if (65 <=? code c) && (code c <=? 90)
  then ascii_of_N (N_of_ascii c + 32) else c.

Definition newline : ascii := ascii_of_N 10.

Definition atom_matches (a : atom) (c : ascii) : bool :=
  match a with
  | Lit x => Ascii.eqb (lower x) (lower c)
  | AnyChar => negb (Ascii.eqb c newline)
  end.

Fixpoint match_here (p : list atom) (s : list ascii) : bool :=
  match p, s with
  | [], _ => true
  | a :: p', c :: s' => atom_matches a c && match_here p' s'
  | _ :: _, [] => false
  end.

Fixpoint search (p : list atom) (s : list ascii) : bool :=
  match_here p s
  || match s with
     | [] => false
     | _ :: s' => search p s'
     end.

Definition atom_of (c : ascii) : atom :=
  if Ascii.eqb c "."%char then AnyChar else Lit c.

(** A pattern of the fragment without error: 7-bit characters, each of
    them [.] or not special. *)
Definition plain (pat : list ascii) : bool :=
  forallb (λ c, (code c <? 128) && (Ascii.eqb c "."%char || negb (special c))) pat.

Inductive pattern_class :=
  | Plain (atoms : list atom)
  | Malformed (msg : exn)
  | Beyond.

Definition classify (pat : list ascii) : pattern_class :=
  match pat with
  | c :: _ =>
      if repeat_sign c then Malformed "nothing to repeat at position 0"
      else if plain pat then Plain (atom_of <$> pat)
      else Beyond
  | [] => Plain []
  end.

Definition engine (rest : Pandas) : Pandas := {|
  regex := list atom + @regex rest;
  re_compile pat :=
    match classify (list_ascii_of_string pat) with
    | Plain atoms => inr (inl atoms)
    | Malformed msg => inl msg
    | Beyond =>
        match @re_compile rest pat with
        | inl e => inl e
        | inr r => inr (inr r)
        end
    end;
  re_search r s :=
    match r with
    | inl atoms => search atoms (list_ascii_of_string s)
    | inr r' => @re_search rest r' s
    end;
  to_datetime := @to_datetime rest;
  mixed_dates_error := @mixed_dates_error rest
|}.

(** An engine that knows no pattern, to close the fragment; its dates are
    the reading of the format directives, it never raises on one, and its
    reductions skip nulls. *)
Definition nothing : Pandas := {|
  regex := Empty_set;
  re_compile _ := inl "pattern outside the fragment";
  re_search r _ := match r with end;
  to_datetime s := inr (to_date s);
  mixed_dates_error := None
|}.

End PyRe.

(** A pandas whose [pd.to_datetime] raises [e] on the value [bad], as
    pandas 3.1.0 does on [0000/01/01], and that is [rest] elsewhere. *)
Definition raising_on (bad : string) (e : exn) (rest : Pandas) : Pandas := {|
  regex := @regex rest;
  re_compile := @re_compile rest;
  re_search := @re_search rest;
  to_datetime s := if bool_decide (s = bad) then inl e else @to_datetime rest s;
  mixed_dates_error := @mixed_dates_error rest
|}.

(** ** The values the script computes, as functions of the loaded frame *)

Section Pure.
Context `{Pandas}.

(** Lines 43 to 56: the value of [date_range]. *)
Definition choose_dates (f : list Row) (pick : option (list date)) : list date :=
  if negb (bool_decide (f = [])) && existsb notnull (post_date_dt <$> f) then
    match dates_min (post_date_dt <$> f), dates_max (post_date_dt <$> f) with
    | Some min_date, Some max_date =>
        match pick with Some sel => sel | None => [min_date; max_date] end
    | _, _ => []
    end
  else [].

(** The exception of the reductions on the dates, if they raise. *)
Definition date_error (f : list Row) : option exn :=
  reduction_error (post_date_dt <$> f).

(** Lines 59 to 70: the upper end of the slider and the value of
    [price_range]. *)
Definition slider_max (f : list Row) : option Z :=
  (λ db_max_price, Z.min db_max_price price_cap) <$> prices_max (price <$> f).

Definition choose_prices (f : list Row) (pick : option (Z * Z)) : Z * Z :=
  match slider_max f with
  | Some top => match pick with Some sel => sel | None => (0, top) end
  | None => (0, 0)
  end.

(** The exception of the slider, if it raises: its upper end is 0. *)
Definition slider_error (f : list Row) : option exn :=
  match slider_max f with
  | Some top =>
      if bool_decide (0 = top) then Some (slider_bounds_error 0 top) else None
  | None => None
  end.

(** Lines 76 to 98, stage by stage. *)
Definition keyword_stage (keyword : string) (g : list Row) : exn + list Row :=
  if bool_decide (keyword ≠ "") then
    match str_contains keyword with
    | inl e => inl e
    | inr c => inr (filter (λ r, c (product_name r) || c (title r)) g)
    end
  else inr g.

Definition author_stage (author_keyword : string) (g : list Row) : exn + list Row :=
  if bool_decide (author_keyword ≠ "") then
    match str_contains author_keyword with
    | inl e => inl e
    | inr c => inr (filter (λ r, c (author r)) g)
    end
  else inr g.

Definition date_stage (date_range : list date) (g : list Row) : list Row :=
  match date_range with
  | [start_date; end_date] => filter (λ r, mask_date start_date end_date r) g
  | _ => g
  end.

Definition price_stage (f : list Row) (price_range : Z * Z) (g : list Row)
    : list Row :=
  if negb (bool_decide (f = [])) then filter (λ r, mask_price price_range r) g
  else g.

Definition filter_pass (f : list Row) (keyword author_keyword : string)
    (date_range : list date) (price_range : Z * Z) : exn + list Row :=
  match keyword_stage keyword f with
  | inl e => inl e
  | inr g1 =>
      match author_stage author_keyword g1 with
      | inl e => inl e
      | inr g2 => inr (price_stage f price_range (date_stage date_range g2))
      end
  end.

(** Lines 105 to 109: the number in the third metric. *)
Definition average (g : list Row) : Z :=
  match prices_mean (price <$> g) with
  | Some m => py_int m
  | None => 0
  end.

(** The elements of the sidebar and of the main column. *)
Definition date_widget (f : list Row) : list element :=
  match dates_min (post_date_dt <$> f), dates_max (post_date_dt <$> f) with
  | Some min_date, Some max_date =>
      [EDateInput "📅 發文日期範圍" (min_date, max_date) min_date max_date]
  | _, _ => []
  end.

Definition slider_widget (f : list Row) : list element :=
  match slider_max f with
  | Some top => [ESlider "💰 價格區間" 0 top (0, top) 100]
  | None => []
  end.

Definition sidebar (f : list Row) : list element :=
  [ ESidebarHeader "🔍 綜合篩選條件";
    ETextInput "🥃 關鍵字搜尋 (酒名/標題)";
    ETextInput "👤 賣家帳號搜尋" ]
  ++ date_widget f ++ slider_widget f.

(** The sidebar when the reductions on the dates have raised, and when
    the slider has raised: what comes before. *)
Definition sidebar_before_dates : list element :=
  [ ESidebarHeader "🔍 綜合篩選條件";
    ETextInput "🥃 關鍵字搜尋 (酒名/標題)";
    ETextInput "👤 賣家帳號搜尋" ].

Definition sidebar_before_slider (f : list Row) : list element :=
  [ ESidebarHeader "🔍 綜合篩選條件";
    ETextInput "🥃 關鍵字搜尋 (酒名/標題)";
    ETextInput "👤 賣家帳號搜尋" ]
  ++ date_widget f.

Definition main_column (f g : list Row) (keyword author_keyword : string)
    : list element :=
  [ EColumns 3;
    EMetric "📦 資料庫總筆數" (len f);
    EMetric "🔍 搜尋結果" (len g);
    EMetric "💰 平均行情" (average g);
    ESubheader (table_title keyword author_keyword);
    if bool_decide (g = [])
    then EWarning "⚠️ 查無資料！請嘗試放寬篩選條件（例如擴大日期範圍或清空關鍵字）。"
    else EDataframe g ].
End Pure.


(** ** Specifications of runs *)

(** [wp m s Q]: running [m] from [s] ends in a result and a state that
    satisfy [Q]. *)
Definition wp {A} (m : M A) (s : state) (Q : exn + A → state → Prop) : Prop :=
  Q (m s).1 (m s).2.

(** What a stage of the filter pass does to the state: it renders nothing,
    keeps every object, and binds [filtered_df] to a frame other than [df]
    that holds what the stage function computes. *)
Definition stage_post (s : state) (df : loc) (x : exn + list Row)
    (r : exn + loc) (s' : state) : Prop :=
  out s' = out s ∧ heap s ⊆ heap s' ∧
  match x with
  | inl e => r = inl e
  | inr g' => ∃ fl', r = inr fl' ∧ fl' ≠ df ∧ heap s' !! fl' = Some g'
  end.

Section Post.
Context `{Pandas}.

(** The result and the final state of a run of [body], in terms of the
    loaded frame. *)
Definition body_post (db : database) (ui : UI) (s : state)
    (r : exn + outcome) (s' : state) : Prop :=
  match load_data db with
  | inl e => r = inl e ∧ s' = s
  | inr f =>
      let date_range := choose_dates f (ui_dates ui) in
      let price_range := choose_prices f (ui_prices ui) in
      ∃ df, heap s !! df = None ∧ heap s' !! df = Some f ∧ heap s ⊆ heap s' ∧
        match date_error f, slider_error f with
        | Some e, _ => r = inl e ∧ out s' = out s ++ sidebar_before_dates
        | None, Some e => r = inl e ∧ out s' = out s ++ sidebar_before_slider f
        | None, None =>
            match filter_pass f (ui_keyword ui) (ui_author ui) date_range
                    price_range with
            | inl e => r = inl e ∧ out s' = out s ++ sidebar f
            | inr g =>
                ∃ filtered_df,
                  filtered_df ≠ df ∧
                  r = inr (Outcome df (ui_keyword ui) (ui_author ui) date_range
                             price_range filtered_df (len f) (len g) (average g) g)
                  ∧ heap s' !! filtered_df = Some g
                  ∧ out s' = out s ++ sidebar f
                             ++ main_column f g (ui_keyword ui) (ui_author ui)
            end
        end
  end.
End Post.

(** ** Notions used in the statements *)

(** The keyword occurs in the text, letter case ignored. *)
Definition substring_ci (kw s : string) : Prop :=
  ∃ pre post : list ascii,
    PyRe.lower <$> list_ascii_of_string s
    = pre ++ (PyRe.lower <$> list_ascii_of_string kw) ++ post.

(** [a] is [b] or an earlier day: the order of the calendar, written with
    the order of the integers. *)
Definition not_after (a b : date) : Prop :=
  year a < year b
  ∨ (year a = year b
     ∧ (month a < month b ∨ (month a = month b ∧ day a ≤ day b))).

(** The columns of a row of the frame are those of a row of the table. *)
Definition same_columns (r : DbRow) (row : Row) : Prop :=
  post_date row = db_post_date r
  ∧ title row = db_title r
  ∧ author row = db_author r
  ∧ product_name row = db_product_name r
  ∧ price row = db_price r
  ∧ link row = db_link r.

(** A keyword of 7-bit characters without special characters. *)
Definition literal (kw : string) : bool :=
  forallb (λ c, (code c <? 128) && negb (PyRe.special c)) (list_ascii_of_string kw).

(** [round(x)]: the nearest integer, ties to the even one. *)
Definition py_round (x : Q) : Z :=
  let n := Qfloor x in
  match (2 * (x - inject_Z n) ?= 1)%Q with
  | Lt => n
  | Gt => n + 1
  | Eq => if Z.even n then n else n + 1
  end.

(** No keyword, no seller, both range widgets left at their defaults. *)
Definition no_constraints : UI :=
  {| ui_keyword := ""; ui_author := ""; ui_dates := None; ui_prices := None |}.

(** The slider hands back a range inside its [min_value] and [max_value]. *)
Definition slider_in_bounds (f : list Row) (ui : UI) : Prop :=
  ∀ sel top, ui_prices ui = Some sel → slider_max f = Some top →
    0 ≤ sel.1 ∧ sel.1 ≤ sel.2 ∧ sel.2 ≤ top.

Definition heading : list element :=
  [ETitle "🥃 P9 威士忌行情監控系統"; EMarkdown rule].

Definition footer : list element :=
  [EMarkdown rule; ECaption "資料來源：P9 品酒網 | 本系統由 Python 自動化爬蟲生成"].

Definition is_error (x : element) : bool :=
  match x with EError _ => true | _ => false end.

(** ** Concrete stores and runs *)

(** The pandas of the concrete runs: the fragment of [re], and dates read
    by the format directives. *)
#[global] Instance py_engine : Pandas := PyRe.engine PyRe.nothing.

Definition listing (n : Z) (d t a p : string) (pr : Z) : DbRow :=
  {| id := n; db_post_date := d; db_title := t; db_author := a;
     db_product_name := p; db_price := pr; db_link := "" |}.

Definition shown (d t a p : string) (pr : Z) (dt : option date) : Row :=
  {| post_date := d; title := t; author := a; product_name := p; price := pr;
     link := ""; post_date_dt := dt |}.

Definition typed (keyword : string) : UI :=
  {| ui_keyword := keyword; ui_author := ""; ui_dates := None; ui_prices := None |}.

Definition no_outcome : outcome :=
  Outcome 1%positive "" "" [] (0, 0) 1%positive 0 0 0 [].

Definition result_of (x : (exn + outcome) * state) : outcome :=
  match x.1 with inr o => o | inl _ => no_outcome end.

(** Two listings, stored oldest first. *)
Definition two_listings : database :=
  Table [ listing 1 "2024/01/01" "Macallan 12" "alice" "Macallan" 3000;
          listing 2 "2024/06/01" "Hibiki 17" "bob" "Hibiki" 12000 ].

Definition macallan : Row :=
  shown "2024/01/01" "Macallan 12" "alice" "Macallan" 3000 (Some (Date 2024 1 1)).

Definition hibiki : Row :=
  shown "2024/06/01" "Hibiki 17" "bob" "Hibiki" 12000 (Some (Date 2024 6 1)).

Definition keyword_outcome : outcome :=
  Eval vm_compute in result_of (@body py_engine two_listings (typed "macallan") start).
Definition keyword_state : state :=
  Eval vm_compute in (@body py_engine two_listings (typed "macallan") start).2.

(** A listing priced above the cap of the slider. *)
Definition with_outlier : database :=
  Table [ listing 1 "2024/01/01" "Karuizawa 1965" "carol" "Karuizawa" 150000 ].

Definition karuizawa : Row :=
  shown "2024/01/01" "Karuizawa 1965" "carol" "Karuizawa" 150000
    (Some (Date 2024 1 1)).

Definition outlier_outcome : outcome :=
  Eval vm_compute in result_of (@body py_engine with_outlier no_constraints start).
Definition outlier_state : state :=
  Eval vm_compute in (@body py_engine with_outlier no_constraints start).2.

(** A listing whose date does not parse, next to one whose date does. *)
Definition with_undated : database :=
  Table [ listing 1 "last week" "Macallan 12" "alice" "Macallan" 3000;
          listing 2 "2024/06/01" "Hibiki 17" "bob" "Hibiki" 12000 ].

Definition undated : Row :=
  shown "last week" "Macallan 12" "alice" "Macallan" 3000 None.

Definition undated_outcome : outcome :=
  Eval vm_compute in result_of (@body py_engine with_undated no_constraints start).
Definition undated_state : state :=
  Eval vm_compute in (@body py_engine with_undated no_constraints start).2.

(** Three miniatures at 1, 2 and 2. *)
Definition miniatures : database :=
  Table [ listing 1 "2024/01/01" "Mini A" "alice" "A" 1;
          listing 2 "2024/01/02" "Mini B" "alice" "B" 2;
          listing 3 "2024/01/03" "Mini C" "alice" "C" 2 ].

Definition miniatures_outcome : outcome :=
  Eval vm_compute in result_of (@body py_engine miniatures no_constraints start).
Definition miniatures_state : state :=
  Eval vm_compute in (@body py_engine miniatures no_constraints start).2.

(** A title in which [12.7] does not occur, and one that ends in [?]. *)
Definition bottles : database :=
  Table [ listing 1 "2024/01/01" "Yamazaki 18?" "bob" "Yamazaki" 30000;
          listing 2 "2024/02/01" "Macallan 12 700ml" "alice" "Macallan" 3000 ].

Definition macallan_700 : Row :=
  shown "2024/02/01" "Macallan 12 700ml" "alice" "Macallan" 3000
    (Some (Date 2024 2 1)).

Definition yamazaki : Row :=
  shown "2024/01/01" "Yamazaki 18?" "bob" "Yamazaki" 30000 (Some (Date 2024 1 1)).

Definition dotted_outcome : outcome :=
  Eval vm_compute in result_of (@body py_engine bottles (typed "12.7") start).
Definition dotted_state : state :=
  Eval vm_compute in (@body py_engine bottles (typed "12.7") start).2.

Definition question_state : state :=
  Eval vm_compute in (@body py_engine bottles (typed "?") start).2.

(** A single listing, given away: the largest price is 0. *)
Definition giveaway : database :=
  Table [ listing 1 "2024/01/01" "Tasting glass" "dave" "Glass" 0 ].

Definition glass : Row :=
  shown "2024/01/01" "Tasting glass" "dave" "Glass" 0 (Some (Date 2024 1 1)).

Definition giveaway_state : state :=
  Eval vm_compute in (@body py_engine giveaway no_constraints start).2.

(** A listing above the cap of the slider next to one below it, and a
    price range picked on the slider. *)
Definition cellar : database :=
  Table [ listing 1 "2024/01/01" "Macallan 12" "alice" "Macallan" 3000;
          listing 2 "2024/01/01" "Karuizawa 1965" "carol" "Karuizawa" 150000 ].

Definition cellar_ui : UI :=
  {| ui_keyword := ""; ui_author := ""; ui_dates := None;
     ui_prices := Some (2000, 100000) |}.

Definition cellar_outcome : outcome :=
  Eval vm_compute in result_of (@body py_engine cellar cellar_ui start).
Definition cellar_state : state :=
  Eval vm_compute in (@body py_engine cellar cellar_ui start).2.

(** A listing dated in the year 0000. *)
Definition year_zero : database :=
  Table [ listing 1 "0000/01/01" "Old bottle" "erin" "Bottle" 500 ].

Definition old_bottle : Row :=
  shown "0000/01/01" "Old bottle" "erin" "Bottle" 500 None.

(** ** Further notions and runs *)

Definition is_date_input (x : element) : bool :=
  match x with EDateInput _ _ _ _ => true | _ => false end.

Definition is_warning (x : element) : bool :=
  match x with EWarning _ => true | _ => false end.

Definition is_dataframe (x : element) : bool :=
  match x with EDataframe _ => true | _ => false end.

(** A calendar date, with a year of four digits. *)
Definition valid_date (d : date) : Prop :=
  1 ≤ year d ∧ year d ≤ 9999
  ∧ 1 ≤ month d ∧ month d ≤ 12
  ∧ 1 ≤ day d ∧ day d ≤ days_in_month (year d) (month d).

(** A date written in the format [%Y/%m/%d], with leading zeros. *)
Definition digit_char (k : Z) : ascii := ascii_of_N (Z.to_N (48 + k)).

Definition two_digits (n : Z) : list ascii :=
  [digit_char (n / 10); digit_char (n mod 10)].

Definition four_digits (n : Z) : list ascii :=
  [digit_char (n / 1000); digit_char (n / 100 mod 10);
   digit_char (n / 10 mod 10); digit_char (n mod 10)].

Definition date_text (d : date) : string :=
  string_of_list_ascii
    (four_digits (year d) ++ "/"%char :: two_digits (month d)
     ++ "/"%char :: two_digits (day d)).

Definition picked (keyword : string) (dates : option (list date))
    (prices : option (Z * Z)) : UI :=
  {| ui_keyword := keyword; ui_author := ""; ui_dates := dates;
     ui_prices := prices |}.

Definition run_of (db : database) (ui : UI) : (exn + outcome) * state :=
  @body py_engine db ui start.

(** The empty table. *)
Definition empty_outcome : outcome :=
  Eval vm_compute in result_of (run_of (Table []) (typed "macallan")).
Definition empty_state : state :=
  Eval vm_compute in (run_of (Table []) (typed "macallan")).2.

(** Two listings, neither with a date that parses. *)
Definition all_undated : database :=
  Table [ listing 1 "last week" "Macallan 12" "alice" "Macallan" 3000;
          listing 2 "yesterday" "Hibiki 17" "bob" "Hibiki" 12000 ].

Definition all_undated_ui : UI :=
  picked "" (Some [Date 2024 1 1; Date 2024 12 31]) None.

Definition all_undated_outcome : outcome :=
  Eval vm_compute in result_of (run_of all_undated all_undated_ui).
Definition all_undated_state : state :=
  Eval vm_compute in (run_of all_undated all_undated_ui).2.

(** Runs on the two listings with other entries. *)
Definition defaults_outcome : outcome :=
  Eval vm_compute in result_of (run_of two_listings no_constraints).
Definition defaults_state : state :=
  Eval vm_compute in (run_of two_listings no_constraints).2.

Definition capitals_outcome : outcome :=
  Eval vm_compute in result_of (run_of two_listings (typed "MACALLAN")).
Definition capitals_state : state :=
  Eval vm_compute in (run_of two_listings (typed "MACALLAN")).2.

Definition inverted_dates_ui : UI :=
  picked "" (Some [Date 2024 12 31; Date 2024 3 1]) None.
Definition inverted_dates_outcome : outcome :=
  Eval vm_compute in result_of (run_of two_listings inverted_dates_ui).
Definition inverted_dates_state : state :=
  Eval vm_compute in (run_of two_listings inverted_dates_ui).2.

Definition inverted_prices_ui : UI := picked "" None (Some (12000, 5000)).
Definition inverted_prices_outcome : outcome :=
  Eval vm_compute in result_of (run_of two_listings inverted_prices_ui).
Definition inverted_prices_state : state :=
  Eval vm_compute in (run_of two_listings inverted_prices_ui).2.

Definition single_day_ui : UI :=
  picked "" (Some [Date 2024 6 1; Date 2024 6 1]) None.
Definition single_day_outcome : outcome :=
  Eval vm_compute in result_of (run_of two_listings single_day_ui).
Definition single_day_state : state :=
  Eval vm_compute in (run_of two_listings single_day_ui).2.

Definition narrow_prices_ui : UI := picked "" None (Some (0, 5000)).
Definition narrow_prices_outcome : outcome :=
  Eval vm_compute in result_of (run_of two_listings narrow_prices_ui).
Definition narrow_prices_state : state :=
  Eval vm_compute in (run_of two_listings narrow_prices_ui).2.

Definition narrow_dates_ui : UI :=
  picked "" (Some [Date 2024 2 1; Date 2024 5 1]) None.
Definition narrow_dates_outcome : outcome :=
  Eval vm_compute in result_of (run_of two_listings narrow_dates_ui).
Definition narrow_dates_state : state :=
  Eval vm_compute in (run_of two_listings narrow_dates_ui).2.

(* ===================================================================== *)
(** * Proofs *)
(* ===================================================================== *)

Example to_date_ok : to_date "2024/03/01" = Some (Date 2024 3 1).
Proof. reflexivity. Qed.

Example to_date_short : to_date "2024/3/1" = Some (Date 2024 3 1).
Proof. reflexivity. Qed.

Example to_date_bad_day : to_date "2023/02/29" = None.
Proof. reflexivity. Qed.

Example to_date_garbage : to_date "yesterday" = None.
Proof. reflexivity. Qed.

Example to_date_dashes : to_date "2024-03-01" = None.
Proof. reflexivity. Qed.


(** ** Rules for runs *)

Lemma wp_run {A} (m : M A) s Q r s' : wp m s Q → m s = (r, s') → Q r s'.
Proof. unfold wp. intros HQ Hrun. by rewrite Hrun in HQ. Qed.

Lemma wp_mono {A} (m : M A) s (Q Q' : exn + A → state → Prop) :
  wp m s Q → (∀ r s', Q r s' → Q' r s') → wp m s Q'.
Proof. unfold wp. auto. Qed.

Lemma wp_ret {A} (a : A) s (Q : exn + A → state → Prop) :
  Q (inr a) s → wp (mret a) s Q.
Proof. done. Qed.

Lemma wp_raise {A} e s (Q : exn + A → state → Prop) :
  Q (inl e) s → wp (raise e) s Q.
Proof. done. Qed.

Lemma wp_bind {A B} (m : M A) (k : A → M B) s (Q : exn + B → state → Prop) :
  wp m s (λ r s', match r with
                  | inl e => Q (inl e) s'
                  | inr a => wp (k a) s' Q
                  end) →
  wp (m ≫= k) s Q.
Proof.
  unfold wp, mbind, M_bind. destruct (m s) as [[e|a] s']; simpl; auto.
Qed.

Lemma wp_lift {A} (x : exn + A) s (Q : exn + A → state → Prop) :
  Q x s → wp (lift x) s Q.
Proof. by destruct x. Qed.

Lemma wp_emit e s (Q : exn + () → state → Prop) :
  Q (inr ()) (State (heap s) (out s ++ [e])) → wp (emit e) s Q.
Proof. done. Qed.

Lemma wp_frame l s (Q : exn + list Row → state → Prop) :
  Q (inr (heap s !!! l)) s → wp (frame l) s Q.
Proof. done. Qed.

Lemma wp_new_frame f s (Q : exn + loc → state → Prop) :
  (∀ l, heap s !! l = None → Q (inr l) (State (<[l:=f]> (heap s)) (out s))) →
  wp (new_frame f) s Q.
Proof.
  intros HQ. apply HQ. apply not_elem_of_dom, is_fresh.
Qed.


Lemma wp_text_input label typed s (Q : exn + string → state → Prop) :
  Q (inr typed) (State (heap s) (out s ++ [ETextInput label])) →
  wp (text_input label typed) s Q.
Proof. done. Qed.

Lemma wp_date_input label value lo hi pick s (Q : exn + list date → state → Prop) :
  Q (inr (match pick with Some sel => sel | None => [value.1; value.2] end))
    (State (heap s) (out s ++ [EDateInput label value lo hi])) →
  wp (date_input label value lo hi pick) s Q.
Proof. done. Qed.

Lemma wp_slider label lo hi value step pick s (Q : exn + (Z * Z) → state → Prop) :
  (lo = hi → Q (inl (slider_bounds_error lo hi)) s) →
  (lo ≠ hi →
   Q (inr (match pick with Some sel => sel | None => value end))
     (State (heap s) (out s ++ [ESlider label lo hi value step]))) →
  wp (slider label lo hi value step pick) s Q.
Proof.
  intros Heq Hne. unfold slider. case_bool_decide.
  - by apply wp_raise, Heq.
  - by apply Hne.
Qed.

Lemma wp_contains `{Pandas} col pat s (Q : exn + (Row → bool) → state → Prop) :
  Q (match str_contains pat with
     | inl e => inl e
     | inr c => inr (λ r, c (col r))
     end) s →
  wp (contains col pat) s Q.
Proof.
  unfold wp, contains, mbind, M_bind. by destruct (str_contains pat).
Qed.

(** Objects are only ever added: a run extends the heap. *)
Lemma wp_getitem l g (mask : Row → bool) s (Q : exn + loc → state → Prop) :
  heap s !! l = Some g →
  (∀ l', heap s !! l' = None →
         Q (inr l') (State (<[l':=filter (λ r, mask r) g]> (heap s)) (out s))) →
  wp (getitem l mask) s Q.
Proof.
  intros Hl HQ. apply wp_bind, wp_frame.
  rewrite (lookup_total_correct _ _ _ Hl). by apply wp_new_frame.
Qed.

Lemma wp_copy l g s (Q : exn + loc → state → Prop) :
  heap s !! l = Some g →
  (∀ l', heap s !! l' = None → Q (inr l') (State (<[l':=g]> (heap s)) (out s))) →
  wp (copy l) s Q.
Proof.
  intros Hl HQ. apply wp_bind, wp_frame.
  rewrite (lookup_total_correct _ _ _ Hl). by apply wp_new_frame.
Qed.


Lemma stage_skip s df fl g :
  fl ≠ df → heap s !! fl = Some g → wp (mret fl) s (stage_post s df (inr g)).
Proof. intros Hne Hfl. apply wp_ret. repeat split; eauto. Qed.

Lemma stage_getitem s df fl g (mask : Row → bool) :
  is_Some (heap s !! df) → heap s !! fl = Some g →
  wp (getitem fl mask) s (stage_post s df (inr (filter (λ r, mask r) g))).
Proof.
  intros [f Hdf] Hfl. eapply wp_getitem; [done|]. intros l' Hl'.
  repeat split; simpl; [by apply insert_subseteq|].
  exists l'. split_and!; [done|congruence|apply lookup_insert_eq].
Qed.

Section Runs.
Context `{Pandas}.

Lemma keyword_stage_run s df fl g keyword :
  is_Some (heap s !! df) → fl ≠ df → heap s !! fl = Some g →
  wp (if bool_decide (keyword ≠ "") then
        mask_keyword ←
          (in_product_name ← contains product_name keyword;
           in_title ← contains title keyword;
           mret (λ r, in_product_name r || in_title r));
        getitem fl mask_keyword
      else mret fl) s (stage_post s df (keyword_stage keyword g)).
Proof.
  intros Hdf Hne Hfl. unfold keyword_stage. case_bool_decide; [|by apply stage_skip].
  apply wp_bind, wp_bind, wp_contains.
  destruct (str_contains keyword) as [e|c] eqn:Hc.
  { by repeat split. }
  apply wp_bind, wp_contains. rewrite Hc. apply wp_ret. by apply stage_getitem.
Qed.

Lemma author_stage_run s df fl g author_keyword :
  is_Some (heap s !! df) → fl ≠ df → heap s !! fl = Some g →
  wp (if bool_decide (author_keyword ≠ "") then
        in_author ← contains author author_keyword;
        getitem fl in_author
      else mret fl) s (stage_post s df (author_stage author_keyword g)).
Proof.
  intros Hdf Hne Hfl. unfold author_stage. case_bool_decide; [|by apply stage_skip].
  apply wp_bind, wp_contains. destruct (str_contains author_keyword) as [e|c].
  { by repeat split. }
  by apply stage_getitem.
Qed.

Lemma date_stage_run s df fl g date_range :
  is_Some (heap s !! df) → fl ≠ df → heap s !! fl = Some g →
  wp (match date_range with
      | [start_date; end_date] => getitem fl (mask_date start_date end_date)
      | _ => mret fl
      end) s (stage_post s df (inr (date_stage date_range g))).
Proof.
  intros Hdf Hne Hfl. unfold date_stage.
  destruct date_range as [|a [|b [|c l]]];
    first [by apply stage_skip | by apply stage_getitem].
Qed.

Lemma price_stage_run s df f fl g price_range :
  heap s !! df = Some f → fl ≠ df → heap s !! fl = Some g →
  wp (f' ← frame df;
      if negb (bool_decide (f' = [])) then getitem fl (mask_price price_range)
      else mret fl) s (stage_post s df (inr (price_stage f price_range g))).
Proof.
  intros Hdf Hne Hfl. apply wp_bind, wp_frame.
  rewrite (lookup_total_correct _ _ _ Hdf). unfold price_stage.
  destruct (negb _); first [by apply stage_skip | by apply stage_getitem].
Qed.
End Runs.


Lemma dates_min_None col : existsb notnull col = false → dates_min col = None.
Proof.
  unfold dates_min. induction col as [|[d|] col IH]; simpl; [done|done|exact IH].
Qed.

Lemma dates_min_max_Some col :
  existsb notnull col = true →
  ∃ a b, dates_min col = Some a ∧ dates_max col = Some b.
Proof.
  unfold dates_min, dates_max.
  induction col as [|[d|] col IH]; simpl; [done|eauto|done].
Qed.

Section Blocks.
Context `{Pandas}.

Lemma reduction_error_no_dates col :
  existsb notnull col = false → reduction_error col = None.
Proof. intros Hany. unfold reduction_error. by rewrite Hany. Qed.

Lemma date_block_run s df f pick :
  heap s !! df = Some f →
  wp (f ← frame df;
      if negb (bool_decide (f = [])) && existsb notnull (post_date_dt <$> f) then
        min_date ← lift (series_min (post_date_dt <$> f));
        max_date ← lift (series_max (post_date_dt <$> f));
        match min_date, max_date with
        | Some min_date, Some max_date =>
            date_input "📅 發文日期範圍" (min_date, max_date) min_date max_date pick
        | _, _ => mret []
        end
      else mret []) s
    (λ r s', heap s' = heap s ∧
             match date_error f with
             | Some e => r = inl e ∧ out s' = out s
             | None => r = inr (choose_dates f pick) ∧
                       out s' = out s ++ date_widget f
             end).
Proof.
  intros Hdf. apply wp_bind, wp_frame.
  rewrite (lookup_total_correct _ _ _ Hdf).
  unfold choose_dates, date_widget, date_error, series_min, series_max.
  destruct (negb (bool_decide (f = [])) && existsb notnull (post_date_dt <$> f))
    eqn:Hshown.
  - apply andb_true_iff in Hshown as [_ Hany].
    destruct (reduction_error (post_date_dt <$> f)) as [e|].
    { by apply wp_bind, wp_lift. }
    apply wp_bind, wp_lift, wp_bind, wp_lift.
    destruct (dates_min_max_Some _ Hany) as (a & b & -> & ->).
    by apply wp_date_input.
  - apply wp_ret. apply andb_false_iff in Hshown as [Hf|Hany].
    + apply negb_false_iff, bool_decide_eq_true in Hf as ->.
      by rewrite app_nil_r.
    + rewrite (reduction_error_no_dates _ Hany), (dates_min_None _ Hany).
      by rewrite app_nil_r.
Qed.

Lemma price_block_run s df f pick :
  heap s !! df = Some f →
  wp (f ← frame df;
      if negb (bool_decide (f = [])) then
        db_max_price ←
          match prices_max (price <$> f) with
          | Some m => mret m
          | None => raise nan_to_int
          end;
        let slider_max := Z.min db_max_price price_cap in
        slider "💰 價格區間" 0 slider_max (0, slider_max) 100 pick
      else mret (0, 0)) s
    (λ r s', heap s' = heap s ∧
             match slider_error f with
             | Some e => r = inl e ∧ out s' = out s
             | None => r = inr (choose_prices f pick) ∧
                       out s' = out s ++ slider_widget f
             end).
Proof.
  intros Hdf. apply wp_bind, wp_frame.
  rewrite (lookup_total_correct _ _ _ Hdf).
  unfold choose_prices, slider_widget, slider_error.
  destruct f as [|r0 f]; simpl.
  { apply wp_ret. by rewrite app_nil_r. }
  apply wp_bind, wp_ret. apply wp_slider.
  - intros Htop. by rewrite bool_decide_eq_true_2.
  - intros Htop. by rewrite bool_decide_eq_false_2.
Qed.

Lemma metrics_block_run s (g : list Row) :
  wp (if negb (bool_decide (g = [])) then
        avg_price ←
          match prices_mean (price <$> g) with
          | Some m => mret (py_int m)
          | None => raise nan_to_int
          end;
        emit (EMetric "💰 平均行情" avg_price);; mret avg_price
      else emit (EMetric "💰 平均行情" 0);; mret 0) s
    (λ r s', r = inr (average g) ∧ heap s' = heap s ∧
             out s' = out s ++ [EMetric "💰 平均行情" (average g)]).
Proof.
  destruct g as [|r0 g]; simpl.
  - by apply wp_bind, wp_emit, wp_ret.
  - apply wp_bind, wp_ret. by apply wp_bind, wp_emit, wp_ret.
Qed.
End Blocks.


(** Chains of heap inclusions. *)
Ltac heap_chain := repeat first [eassumption | etrans; [eassumption|]].

Section Body.
Context `{Pandas}.

Lemma body_spec db ui s : wp (body db ui) s (body_post db ui s).
Proof.
  unfold body, body_post.
  apply wp_bind, wp_bind, wp_lift.
  destruct (load_data db) as [e|f]; [done|].
  apply wp_new_frame. intros df Hfresh.
  apply wp_bind, wp_emit, wp_bind, wp_text_input, wp_bind, wp_text_input.
  set (s1 := State _ _).
  assert (Hsub1 : heap s ⊆ heap s1) by by apply insert_subseteq.
  assert (Hdf1 : heap s1 !! df = Some f) by apply lookup_insert_eq.
  assert (Ho1 : out s1 = out s ++ [ ESidebarHeader "🔍 綜合篩選條件";
    ETextInput "🥃 關鍵字搜尋 (酒名/標題)"; ETextInput "👤 賣家帳號搜尋" ]).
  { simpl. by rewrite <- !app_assoc. }
  clearbody s1.
  apply wp_bind. eapply wp_mono; [by apply date_block_run|].
  intros r2 s2 (Hh2 & Hdates). rewrite <- Hh2 in Hsub1, Hdf1.
  destruct (date_error f) as [e|].
  { destruct Hdates as [-> Ho2]. exists df. split_and!; [done..|].
    by rewrite Ho2, Ho1. }
  destruct Hdates as [-> Ho2].
  apply wp_bind. eapply wp_mono; [by apply price_block_run|].
  intros r3 s3 (Hh3 & Hslider). rewrite <- Hh3 in Hsub1, Hdf1.
  destruct (slider_error f) as [e|].
  { destruct Hslider as [-> Ho3]. exists df. split_and!; [done..|].
    rewrite Ho3, Ho2, Ho1. unfold sidebar_before_slider.
    by rewrite <- !app_assoc. }
  destruct Hslider as [-> Ho3].
  assert (Hside : out s3 = out s ++ sidebar f).
  { rewrite Ho3, Ho2, Ho1. unfold sidebar. by rewrite <- !app_assoc. }
  clear Hh2 Ho2 Hh3 Ho3 Ho1 s1 s2.
  eapply wp_bind, wp_copy; [done|]. intros fl0 Hfl0.
  set (s4 := State _ _).
  assert (Hsub4 : heap s3 ⊆ heap s4) by by apply insert_subseteq.
  assert (Hfl4 : heap s4 !! fl0 = Some f) by apply lookup_insert_eq.
  assert (Hne0 : fl0 ≠ df) by congruence.
  assert (Hdf4 : heap s4 !! df = Some f) by by eapply lookup_weaken.
  assert (Ho4 : out s4 = out s3) by done.
  clearbody s4. unfold filter_pass.
  apply wp_bind. eapply wp_mono; [by apply keyword_stage_run|].
  intros r s5 (Ho5 & Hsub5 & Hr).
  destruct (keyword_stage _ f) as [e|g1].
  { subst r. exists df. split_and!; [done|..|by rewrite Ho5, Ho4].
    - eapply lookup_weaken; [done|]. by etrans.
    - heap_chain.
    - done. }
  destruct Hr as (fl1 & -> & Hne1 & Hfl5).
  assert (Hdf5 : heap s5 !! df = Some f) by by eapply lookup_weaken.
  apply wp_bind. eapply wp_mono; [by apply author_stage_run|].
  intros r s6 (Ho6 & Hsub6 & Hr).
  destruct (author_stage _ g1) as [e|g2].
  { subst r. exists df. split_and!; [done|..|by rewrite Ho6, Ho5, Ho4].
    - eapply lookup_weaken; [done|]. heap_chain.
    - heap_chain.
    - done. }
  destruct Hr as (fl2 & -> & Hne2 & Hfl6).
  assert (Hdf6 : heap s6 !! df = Some f) by by eapply lookup_weaken.
  apply wp_bind. eapply wp_mono; [by apply date_stage_run|].
  intros r s7 (Ho7 & Hsub7 & fl3 & -> & Hne3 & Hfl7).
  assert (Hdf7 : heap s7 !! df = Some f) by by eapply lookup_weaken.
  apply wp_bind. eapply wp_mono; [by eapply price_stage_run|].
  intros r s8 (Ho8 & Hsub8 & fl4 & -> & Hne4 & Hfl8).
  assert (Hdf8 : heap s8 !! df = Some f) by by eapply lookup_weaken.
  set (g := price_stage _ _ _) in *.
  apply wp_bind, wp_emit, wp_bind, wp_frame. simpl.
  rewrite (lookup_total_correct _ _ _ Hdf8).
  apply wp_bind, wp_emit, wp_bind, wp_frame. simpl.
  rewrite (lookup_total_correct _ _ _ Hfl8).
  apply wp_bind, wp_emit, wp_bind.
  eapply wp_mono; [by apply metrics_block_run|].
  intros ? s9 (-> & Hh9 & Ho9). simpl in Hh9, Ho9.
  apply wp_bind, wp_emit, wp_bind.
  eapply wp_mono with (Q := λ r s', r = inr () ∧ heap s' = heap s9 ∧
    out s' = out s9 ++ [ESubheader (table_title (ui_keyword ui) (ui_author ui));
      if bool_decide (g = [])
      then EWarning "⚠️ 查無資料！請嘗試放寬篩選條件（例如擴大日期範圍或清空關鍵字）。"
      else EDataframe g]).
  { case_bool_decide; simpl; apply wp_emit; simpl; by rewrite <- app_assoc. }
  intros ? s10 (-> & Hh10 & Ho10). apply wp_ret.
  exists df. split_and!; [done|..].
  - by rewrite Hh10, Hh9.
  - rewrite Hh10, Hh9. heap_chain.
  - exists fl4. split_and!; [done|done|by rewrite Hh10, Hh9|].
    rewrite Ho10, Ho9, Ho8, Ho7, Ho6, Ho5, Ho4, Hside.
    unfold main_column, sidebar. rewrite <- !app_assoc. reflexivity.
Qed.
End Body.


(** ** The order on dates *)

Lemma date_leb_spec a b :
  date_leb a b = true ↔
  year a < year b ∨ (year a = year b ∧
    (month a < month b ∨ (month a = month b ∧ day a ≤ day b))).
Proof.
  unfold date_leb.
  rewrite orb_true_iff, andb_true_iff, orb_true_iff, andb_true_iff.
  rewrite !Z.ltb_lt, !Z.eqb_eq, Z.leb_le. tauto.
Qed.

Lemma date_leb_refl a : date_leb a a = true.
Proof. apply date_leb_spec. lia. Qed.

Lemma date_leb_trans a b c :
  date_leb a b = true → date_leb b c = true → date_leb a c = true.
Proof. rewrite !date_leb_spec. lia. Qed.

Lemma date_leb_total a b : date_leb a b = true ∨ date_leb b a = true.
Proof. rewrite !date_leb_spec. lia. Qed.

Lemma date_min_le_l a b : date_leb (date_min a b) a = true.
Proof.
  unfold date_min. destruct (date_leb a b) eqn:Hab; [apply date_leb_refl|].
  destruct (date_leb_total a b); congruence.
Qed.

Lemma date_min_le_r a b : date_leb (date_min a b) b = true.
Proof.
  unfold date_min. destruct (date_leb a b) eqn:Hab; [done|apply date_leb_refl].
Qed.

Lemma date_max_ge_l a b : date_leb a (date_max a b) = true.
Proof.
  unfold date_max. destruct (date_leb a b) eqn:Hab; [done|apply date_leb_refl].
Qed.

Lemma date_max_ge_r a b : date_leb b (date_max a b) = true.
Proof.
  unfold date_max. destruct (date_leb a b) eqn:Hab; [apply date_leb_refl|].
  destruct (date_leb_total a b); congruence.
Qed.

Lemma foldl_date_min_le ds : ∀ d x,
  x ∈ d :: ds → date_leb (foldl date_min d ds) x = true.
Proof.
  induction ds as [|e ds IH]; intros d x Hx; simpl.
  - apply list_elem_of_singleton in Hx as ->. apply date_leb_refl.
  - apply elem_of_cons in Hx as [->|Hx].
    + eapply date_leb_trans; [apply IH; left|apply date_min_le_l].
    + apply elem_of_cons in Hx as [->|Hx].
      * eapply date_leb_trans; [apply IH; left|apply date_min_le_r].
      * apply IH. by right.
Qed.

Lemma foldl_date_max_ge ds : ∀ d x,
  x ∈ d :: ds → date_leb x (foldl date_max d ds) = true.
Proof.
  induction ds as [|e ds IH]; intros d x Hx; simpl.
  - apply list_elem_of_singleton in Hx as ->. apply date_leb_refl.
  - apply elem_of_cons in Hx as [->|Hx].
    + eapply date_leb_trans; [apply date_max_ge_l|apply IH; left].
    + apply elem_of_cons in Hx as [->|Hx].
      * eapply date_leb_trans; [apply date_max_ge_r|apply IH; left].
      * apply IH. by right.
Qed.

Lemma present_date (col : list (option date)) (x : date) : Some x ∈ col → x ∈ omap (λ y, y) col.
Proof. intros Hx. apply list_elem_of_omap. eauto. Qed.

Lemma dates_min_le col a x :
  dates_min col = Some a → Some x ∈ col → date_leb a x = true.
Proof.
  unfold dates_min. intros Ha Hx%present_date.
  destruct (omap _ col) as [|d ds]; [done|]. injection Ha as <-.
  by apply foldl_date_min_le.
Qed.

Lemma dates_max_ge col b x :
  dates_max col = Some b → Some x ∈ col → date_leb x b = true.
Proof.
  unfold dates_max. intros Hb Hx%present_date.
  destruct (omap _ col) as [|d ds]; [done|]. injection Hb as <-.
  by apply foldl_date_max_ge.
Qed.

(** ** The largest price *)

Lemma foldl_max_bounds ps : ∀ p,
  foldl Z.max p ps ∈ p :: ps ∧ ∀ x, x ∈ p :: ps → x ≤ foldl Z.max p ps.
Proof.
  induction ps as [|q ps IH]; intros p; simpl.
  - split; [left|]. intros x ->%list_elem_of_singleton. lia.
  - destruct (IH (p `max` q)) as [Hin Hub]. split.
    + apply elem_of_cons in Hin as [Heq|Hin]; [|by do 2 right].
      rewrite Heq. destruct (Z.max_spec p q) as [[_ ->]|[_ ->]];
        [right; left|left].
    + intros x Hx. apply elem_of_cons in Hx as [->|Hx].
      * etrans; [|apply Hub; left]. lia.
      * apply elem_of_cons in Hx as [->|Hx].
        -- etrans; [|apply Hub; left]. lia.
        -- apply Hub. by right.
Qed.

Lemma prices_max_spec col m :
  prices_max col = Some m → m ∈ col ∧ ∀ p, p ∈ col → p ≤ m.
Proof.
  destruct col as [|p ps]; [done|]. simpl. intros [= <-].
  apply foldl_max_bounds.
Qed.

(** ** Truncation of the mean *)

Lemma py_int_quot (a : Z) (b : positive) : py_int (a # b) = a ÷ Z.pos b.
Proof.
  unfold py_int, Qle_bool, Qceiling, Qfloor. simpl. rewrite Z.mul_1_r.
  change (0 * Z.pos b) with 0.
  destruct (Z.leb_spec 0 a) as [Ha|Ha].
  - symmetry. apply Z.quot_div_nonneg; lia.
  - rewrite <- (Z.opp_involutive a) at 2. rewrite Z.quot_opp_l by done.
    rewrite Z.quot_div_nonneg by lia. done.
Qed.


Section Results.
Context `{Pandas}.

(** A normal run: every value of the outcome in terms of the loaded frame. *)
Lemma body_success db ui s o s' :
body db ui s = (inr o, s') →
∃ f, load_data db = inr f
  ∧ v_keyword o = ui_keyword ui
  ∧ v_author_keyword o = ui_author ui
  ∧ v_date_range o = choose_dates f (ui_dates ui)
  ∧ v_price_range o = choose_prices f (ui_prices ui)
  ∧ filter_pass f (ui_keyword ui) (ui_author ui) (v_date_range o)
      (v_price_range o) = inr (rows o)
  ∧ total_count o = len f
  ∧ filtered_count o = len (rows o)
  ∧ average_price o = average (rows o)
  ∧ heap s !! v_df o = None
  ∧ heap s' !! v_df o = Some f
  ∧ heap s ⊆ heap s'
  ∧ v_filtered_df o ≠ v_df o
  ∧ heap s' !! v_filtered_df o = Some (rows o)
  ∧ out s' = out s ++ sidebar f
             ++ main_column f (rows o) (ui_keyword ui) (ui_author ui).
Proof.
intros Hrun. pose proof (wp_run _ _ _ _ _ (body_spec db ui s) Hrun) as Hpost.
unfold body_post in Hpost. destruct (load_data db) as [e|f].
{ by destruct Hpost. }
destruct Hpost as (df & Hfresh & Hdf & Hsub & Hpost).
destruct (date_error f) as [e|].
{ by destruct Hpost. }
destruct (slider_error f) as [e|].
{ by destruct Hpost. }
destruct (filter_pass _ _ _ _ _) as [e|g] eqn:Hpass.
{ by destruct Hpost. }
destruct Hpost as (fl & Hne & [= ->] & Hfl & Hout).
exists f. simpl. by split_and!.
Qed.

(** A run whose load, reductions, slider and patterns are fine ends
  normally. *)
Lemma body_returns db ui s f g :
load_data db = inr f →
date_error f = None →
slider_error f = None →
filter_pass f (ui_keyword ui) (ui_author ui) (choose_dates f (ui_dates ui))
  (choose_prices f (ui_prices ui)) = inr g →
∃ o s', body db ui s = (inr o, s') ∧ rows o = g.
Proof.
intros Hload Hdates Hslider Hpass. pose proof (body_spec db ui s) as Hpost.
unfold wp, body_post in Hpost. rewrite Hload in Hpost. simpl in Hpost.
destruct Hpost as (df & _ & _ & _ & Hpost).
rewrite Hdates, Hslider, Hpass in Hpost.
destruct Hpost as (fl & _ & Hr & _).
destruct (body db ui s) as [r s'] eqn:Hrun. simpl in Hr. subst r.
by eexists _, _.
Qed.

(** A run that raises: the load failed and nothing was rendered, or a
  reduction on the dates raised after the two text boxes were rendered,
  or the slider raised after the widgets before it were rendered, or a
  pattern failed to compile after the sidebar was rendered. *)
Lemma body_failure db ui s e s' :
body db ui s = (inl e, s') →
(load_data db = inl e ∧ s' = s)
∨ ∃ f, load_data db = inr f
    ∧ ((date_error f = Some e ∧ out s' = out s ++ sidebar_before_dates)
       ∨ (date_error f = None ∧ slider_error f = Some e
          ∧ out s' = out s ++ sidebar_before_slider f)
       ∨ (date_error f = None ∧ slider_error f = None
          ∧ filter_pass f (ui_keyword ui) (ui_author ui)
              (choose_dates f (ui_dates ui)) (choose_prices f (ui_prices ui))
            = inl e
          ∧ out s' = out s ++ sidebar f)).
Proof.
intros Hrun. pose proof (wp_run _ _ _ _ _ (body_spec db ui s) Hrun) as Hpost.
unfold body_post in Hpost. destruct (load_data db) as [e'|f].
{ destruct Hpost as [[= ->] ->]. by left. }
destruct Hpost as (df & Hfresh & Hdf & Hsub & Hpost). right. exists f.
split; [done|]. destruct (date_error f) as [e'|].
{ destruct Hpost as [[= ->] Hout]. by left. }
right. destruct (slider_error f) as [e'|].
{ destruct Hpost as [[= ->] Hout]. by left. }
right. destruct (filter_pass _ _ _ _ _) as [e'|g] eqn:Hpass.
- by destruct Hpost as [[= ->] Hout].
- by destruct Hpost as (fl & _ & [=] & _).
Qed.

(** Each stage keeps a subsequence of its input. *)
Lemma keyword_stage_sublist keyword g g' :
keyword_stage keyword g = inr g' → g' `sublist_of` g.
Proof.
unfold keyword_stage. case_bool_decide; [|by intros [= <-]].
destruct (str_contains keyword); [done|]. intros [= <-]. apply sublist_filter.
Qed.

Lemma author_stage_sublist author_keyword g g' :
author_stage author_keyword g = inr g' → g' `sublist_of` g.
Proof.
unfold author_stage. case_bool_decide; [|by intros [= <-]].
destruct (str_contains author_keyword); [done|]. intros [= <-].
apply sublist_filter.
Qed.

Lemma date_stage_sublist date_range g : date_stage date_range g `sublist_of` g.
Proof.
unfold date_stage. destruct date_range as [|a [|b [|c l]]];
  first [done | apply sublist_filter].
Qed.

Lemma price_stage_sublist f price_range g :
price_stage f price_range g `sublist_of` g.
Proof.
unfold price_stage. destruct (negb _); first [done | apply sublist_filter].
Qed.

Lemma filter_pass_sublist f keyword author_keyword date_range price_range g :
filter_pass f keyword author_keyword date_range price_range = inr g →
g `sublist_of` f.
Proof.
unfold filter_pass.
destruct (keyword_stage keyword f) as [|g1] eqn:H1; [done|].
destruct (author_stage author_keyword g1) as [|g2] eqn:H2; [done|].
intros [= <-].
etrans; [apply price_stage_sublist|]. etrans; [apply date_stage_sublist|].
etrans; [by eapply author_stage_sublist|]. by eapply keyword_stage_sublist.
Qed.

(** C9: whatever the criteria, the filtered rows are a subsequence of the
    loaded rows: every stage (keyword, seller, date, price) keeps a
    subsequence of the rows it receives, so every row shown is a loaded
    row, in the loaded order, and [filtered_count <= total_count]. *)
Theorem filtered_rows_sublist db ui s o s' f :
load_data db = inr f →
body db ui s = (inr o, s') →
rows o `sublist_of` f
∧ (∀ r, r ∈ rows o → r ∈ f)
∧ filtered_count o ≤ total_count o
∧ ∃ g1 g2 g3,
    keyword_stage (v_keyword o) f = inr g1
    ∧ author_stage (v_author_keyword o) g1 = inr g2
    ∧ date_stage (v_date_range o) g2 = g3
    ∧ price_stage f (v_price_range o) g3 = rows o
    ∧ g1 `sublist_of` f ∧ g2 `sublist_of` g1 ∧ g3 `sublist_of` g2
    ∧ rows o `sublist_of` g3.
Proof.
intros Hload Hrun.
destruct (body_success _ _ _ _ _ Hrun)
  as (f' & Hload' & Hkw & Hau & _ & _ & Hpass & Htot & Hcnt & _).
rewrite Hload in Hload'. injection Hload' as <-.
pose proof (filter_pass_sublist _ _ _ _ _ _ Hpass) as Hsub.
split_and!; [done|..].
- intros r Hr. by eapply elem_of_sublist.
- rewrite Htot, Hcnt. unfold len. apply sublist_length in Hsub. lia.
- unfold filter_pass in Hpass. rewrite Hkw, Hau.
  destruct (keyword_stage _ f) as [|g1] eqn:H1; [done|].
  destruct (author_stage _ g1) as [|g2] eqn:H2; [done|].
  injection Hpass as Hpass. exists g1, g2, (date_stage (v_date_range o) g2).
  split_and!; try done.
  + by eapply keyword_stage_sublist.
  + by eapply author_stage_sublist.
  + apply date_stage_sublist.
  + rewrite <- Hpass. apply price_stage_sublist.
Qed.
End Results.


Section Filters.
Context `{Pandas}.

Lemma mask_date_spec start_date end_date r :
mask_date start_date end_date r ↔
∃ d, post_date_dt r = Some d
     ∧ date_leb start_date d = true ∧ date_leb d end_date = true.
Proof.
unfold mask_date, date_ge, date_le. destruct (post_date_dt r) as [d|]; simpl.
- rewrite andb_True, !Is_true_true. split.
  + intros [??]. by exists d.
  + by intros (? & [= <-] & ? & ?).
- split; [done|]. by intros (? & [=] & _).
Qed.

Lemma mask_price_spec price_range r :
mask_price price_range r ↔ price_range.1 ≤ price r ∧ price r ≤ price_range.2.
Proof. unfold mask_price. rewrite andb_True, !Is_true_true, !Z.leb_le. done. Qed.

Lemma elem_of_date_stage date_range g r :
r ∈ date_stage date_range g ↔
r ∈ g ∧ match date_range with
        | [start_date; end_date] =>
            ∃ d, post_date_dt r = Some d
                 ∧ date_leb start_date d = true ∧ date_leb d end_date = true
        | _ => True
        end.
Proof.
unfold date_stage. destruct date_range as [|a [|b [|c l]]]; try tauto.
rewrite list_elem_of_filter, mask_date_spec. tauto.
Qed.

Lemma elem_of_price_stage f price_range g r :
g `sublist_of` f →
r ∈ price_stage f price_range g ↔
r ∈ g ∧ price_range.1 ≤ price r ∧ price r ≤ price_range.2.
Proof.
intros Hsub. unfold price_stage. destruct f as [|r0 f]; simpl.
- apply sublist_nil_r in Hsub as ->. rewrite elem_of_nil. tauto.
- rewrite list_elem_of_filter, mask_price_spec. tauto.
Qed.

(** The stages of a normal run, and the rows entering each of them. *)
Lemma body_stages db ui s o s' f :
load_data db = inr f →
body db ui s = (inr o, s') →
∃ g1 g2,
  keyword_stage (ui_keyword ui) f = inr g1
  ∧ author_stage (ui_author ui) g1 = inr g2
  ∧ g2 `sublist_of` f
  ∧ rows o = price_stage f (v_price_range o) (date_stage (v_date_range o) g2).
Proof.
intros Hload Hrun.
destruct (body_success _ _ _ _ _ Hrun)
  as (f' & Hload' & _ & _ & _ & _ & Hpass & _).
rewrite Hload in Hload'. injection Hload' as <-.
unfold filter_pass in Hpass.
destruct (keyword_stage _ f) as [|g1] eqn:H1; [done|].
destruct (author_stage _ g1) as [|g2] eqn:H2; [done|].
injection Hpass as Hpass. exists g1, g2. split_and!; try done.
etrans; [by eapply author_stage_sublist|by eapply keyword_stage_sublist].
Qed.

(** C4: the date filter is applied only when [date_range] holds both a
    start and an end.  Then the rows kept are exactly the rows that passed
    the keyword and seller filters, have a normalized date [d] with
    [start <= d <= end] in the order of the calendar (year, then month,
    then day, the day compared with [<=]) and pass the price filter.
    Both ends are included: a row dated exactly [start] or exactly [end]
    is kept when it passes the other filters.  A row whose [post_date]
    did not parse is dropped.  When [date_range] does not hold two dates,
    no condition on the date is imposed, and such a row is kept if it
    passes the other filters. *)
Theorem date_filter_when_both_bounds db ui s o s' f :
load_data db = inr f →
body db ui s = (inr o, s') →
∃ g1 g2,
  keyword_stage (ui_keyword ui) f = inr g1
  ∧ author_stage (ui_author ui) g1 = inr g2
  ∧ (∀ start_date end_date, v_date_range o = [start_date; end_date] →
     (∀ r, r ∈ rows o ↔
           r ∈ g2
           ∧ (∃ d, post_date_dt r = Some d
                   ∧ not_after start_date d ∧ not_after d end_date)
           ∧ (v_price_range o).1 ≤ price r ∧ price r ≤ (v_price_range o).2)
     ∧ (∀ r, r ∈ g2 →
           (v_price_range o).1 ≤ price r ∧ price r ≤ (v_price_range o).2 →
           not_after start_date end_date →
           post_date_dt r = Some start_date ∨ post_date_dt r = Some end_date →
           r ∈ rows o)
     ∧ (∀ r, post_date_dt r = None → r ∉ rows o))
  ∧ (length (v_date_range o) ≠ 2%nat →
     ∀ r, r ∈ rows o ↔
          r ∈ g2
          ∧ (v_price_range o).1 ≤ price r ∧ price r ≤ (v_price_range o).2).
Proof.
intros Hload Hrun.
destruct (body_stages _ _ _ _ _ _ Hload Hrun) as (g1 & g2 & H1 & H2 & Hsub & ->).
exists g1, g2. split_and!; [done|done|..].
- intros a b Hdr.
  assert (Hmem : ∀ r,
    r ∈ price_stage f (v_price_range o) (date_stage (v_date_range o) g2) ↔
    r ∈ g2
    ∧ (∃ d, post_date_dt r = Some d ∧ not_after a d ∧ not_after d b)
    ∧ (v_price_range o).1 ≤ price r ∧ price r ≤ (v_price_range o).2).
  { intros r. rewrite Hdr.
    rewrite elem_of_price_stage
      by (etrans; [apply date_stage_sublist|done]).
    rewrite elem_of_date_stage. unfold not_after.
    setoid_rewrite date_leb_spec. tauto. }
  split_and!; [done|..].
  + intros r Hr Hprice Hab [Hd|Hd]; apply Hmem; (split_and!; [done| |tauto..]).
    * exists a. split_and!; [done| |done]. unfold not_after. lia.
    * exists b. split_and!; [done|done|]. unfold not_after. lia.
  + intros r Hnone (_ & (d & Hd & _) & _)%Hmem. congruence.
- intros Hlen r.
  rewrite elem_of_price_stage
    by (etrans; [apply date_stage_sublist|done]).
  rewrite elem_of_date_stage.
  destruct (v_date_range o) as [|a [|b [|c l]]]; simpl in Hlen; tauto.
Qed.

(** C5: the price filter keeps exactly the rows it receives whose price
    lies between the two ends of [price_range], both included: a row
    priced at either end is kept.  With the slider left alone on a
    non-empty table, [price_range] is [(0, min(max price, 100000))]. *)
Theorem price_filter_inclusive db ui s o s' f :
load_data db = inr f →
body db ui s = (inr o, s') →
(∃ g1 g2 g3,
   keyword_stage (ui_keyword ui) f = inr g1
   ∧ author_stage (ui_author ui) g1 = inr g2
   ∧ date_stage (v_date_range o) g2 = g3
   ∧ (∀ r, r ∈ rows o ↔
           r ∈ g3 ∧ (v_price_range o).1 ≤ price r ∧ price r ≤ (v_price_range o).2)
   ∧ (∀ r, r ∈ g3 → (v_price_range o).1 ≤ (v_price_range o).2 →
           price r = (v_price_range o).1 ∨ price r = (v_price_range o).2 →
           r ∈ rows o))
∧ (ui_prices ui = None → f ≠ [] →
   ∃ max_price,
     max_price ∈ price <$> f
     ∧ (∀ p, p ∈ price <$> f → p ≤ max_price)
     ∧ v_price_range o = (0, max_price `min` 100000)).
Proof.
intros Hload Hrun.
destruct (body_stages _ _ _ _ _ _ Hload Hrun) as (g1 & g2 & H1 & H2 & Hsub & Hrows).
assert (Hmem : ∀ r, r ∈ rows o ↔
  r ∈ date_stage (v_date_range o) g2
  ∧ (v_price_range o).1 ≤ price r ∧ price r ≤ (v_price_range o).2).
{ intros r. rewrite Hrows. apply elem_of_price_stage.
  etrans; [apply date_stage_sublist|done]. }
split.
- exists g1, g2, (date_stage (v_date_range o) g2). split_and!; try done.
  intros r Hr Hle Hb. apply Hmem. split; [done|]. lia.
- intros Hpick Hf.
  destruct (body_success _ _ _ _ _ Hrun)
    as (f' & Hload' & _ & _ & _ & Hpr & _).
  rewrite Hload in Hload'. injection Hload' as <-.
  unfold choose_prices, slider_max in Hpr. rewrite Hpick in Hpr.
  destruct (prices_max (price <$> f)) as [m|] eqn:Hmax.
  + destruct (prices_max_spec _ _ Hmax) as [Hin Hub]. by exists m.
  + by destruct f.
Qed.

(** C8: on a non-empty table the slider is created with
    [max_value = min(max price, 100000)], which is at most 100000; the
    range it hands back lies below that, and as the price filter always
    runs on a non-empty table, no row priced above 100000 is in the
    filtered result, whatever the criteria. *)
Theorem price_cap_bounds_result db ui s o s' f :
  load_data db = inr f →
  f ≠ [] →
  slider_in_bounds f ui →
  body db ui s = (inr o, s') →
  ∃ max_price,
    max_price ∈ price <$> f
    ∧ (∀ p, p ∈ price <$> f → p ≤ max_price)
    ∧ ESlider "💰 價格區間" 0 (max_price `min` 100000)
        (0, max_price `min` 100000) 100 ∈ out s'
    ∧ max_price `min` 100000 ≤ 100000
    ∧ (v_price_range o).2 ≤ 100000
    ∧ ∀ r, r ∈ rows o → price r ≤ 100000.
Proof.
  intros Hload Hf Hslider Hrun.
  destruct (body_stages _ _ _ _ _ _ Hload Hrun) as (g1 & g2 & H1 & H2 & Hsub & Hrows).
  destruct (body_success _ _ _ _ _ Hrun)
    as (f' & Hload' & _ & _ & _ & Hpr & _ & _ & _ & _ & _ & _ & _ & _ & _ & Hout).
  rewrite Hload in Hload'. injection Hload' as <-.
  destruct (prices_max (price <$> f)) as [m|] eqn:Hmax; [|by destruct f].
  destruct (prices_max_spec _ _ Hmax) as [Hin Hub].
  assert (Htop : slider_max f = Some (m `min` 100000)).
  { unfold slider_max. by rewrite Hmax. }
  assert (Hhi : (v_price_range o).2 ≤ 100000).
  { rewrite Hpr. unfold choose_prices. rewrite Htop.
    destruct (ui_prices ui) as [sel|] eqn:Hsel; simpl; [|lia].
    destruct (Hslider sel _ Hsel Htop) as (_ & _ & Hle). lia. }
  exists m. split_and!; [done|done|..|lia|done|].
  - rewrite Hout. unfold sidebar, slider_widget. rewrite Htop.
    apply elem_of_app. right. apply elem_of_app. left.
    apply elem_of_app. right. apply elem_of_app. right. left.
  - intros r Hr. rewrite Hrows in Hr.
    apply elem_of_price_stage in Hr as (_ & _ & Hle);
      [lia|etrans; [apply date_stage_sublist|done]].
Qed.

(** C10: the filter pass works on a copy.  After a run, for every choice
    of criteria and whether or not the run raises, the object bound to
    [df] still holds the rows that were loaded, the objects that existed
    before are untouched, [filtered_df] is another object than [df], and
    [total_count] is the number of loaded rows: the same for any two runs
    over the same load. *)
Theorem loaded_frame_unchanged db f :
load_data db = inr f →
(∀ ui s, ∃ df,
   heap s !! df = None
   ∧ heap (body db ui s).2 !! df = Some f
   ∧ (∀ l g, heap s !! l = Some g → heap (body db ui s).2 !! l = Some g)
   ∧ ∀ o, (body db ui s).1 = inr o →
          v_df o = df ∧ v_filtered_df o ≠ df ∧ total_count o = len f)
∧ (∀ ui1 ui2 s1 s2 o1 o2,
     (body db ui1 s1).1 = inr o1 → (body db ui2 s2).1 = inr o2 →
     total_count o1 = total_count o2).
Proof.
intros Hload.
assert (Hone : ∀ ui s, ∃ df,
   heap s !! df = None
   ∧ heap (body db ui s).2 !! df = Some f
   ∧ (∀ l g, heap s !! l = Some g → heap (body db ui s).2 !! l = Some g)
   ∧ ∀ o, (body db ui s).1 = inr o →
          v_df o = df ∧ v_filtered_df o ≠ df ∧ total_count o = len f).
{ intros ui s. pose proof (body_spec db ui s) as Hpost.
  unfold wp, body_post in Hpost. rewrite Hload in Hpost. simpl in Hpost.
  destruct Hpost as (df & Hfresh & Hdf & Hsub & Hpost).
  exists df. split_and!; [done|done|..].
  - intros l g Hl. by eapply lookup_weaken.
  - intros o Ho. rewrite Ho in Hpost.
    destruct (date_error f) as [e|]; [by destruct Hpost|].
    destruct (slider_error f) as [e|]; [by destruct Hpost|].
    destruct (filter_pass _ _ _ _ _) as [e|g]; [by destruct Hpost|].
    by destruct Hpost as (fl & Hne & [= ->] & _). }
split; [done|].
intros ui1 ui2 s1 s2 o1 o2 Ho1 Ho2.
destruct (Hone ui1 s1) as (? & _ & _ & _ & Ht1).
destruct (Hone ui2 s2) as (? & _ & _ & _ & Ht2).
destruct (Ht1 _ Ho1) as (_ & _ & ->). by destruct (Ht2 _ Ho2) as (_ & _ & ->).
Qed.
End Filters.


Lemma filter_keep_all {A} (P : A → Prop) `{!∀ x, Decision (P x)} (l : list A) :
  (∀ x, x ∈ l → P x) → filter P l = l.
Proof.
  induction l as [|x l IH]; intros Hall; [done|].
  rewrite filter_cons_True by (apply Hall; left).
  f_equal. apply IH. intros y Hy. apply Hall. by right.
Qed.

Section Defaults.
Context `{Pandas}.

Lemma default_dates_keep_all f :
(∀ r, r ∈ f → is_Some (post_date_dt r)) ∨ (∀ r, r ∈ f → post_date_dt r = None) →
date_stage (choose_dates f None) f = f.
Proof.
intros Hdates. unfold choose_dates.
destruct (negb (bool_decide (f = [])) && existsb notnull (post_date_dt <$> f))
  eqn:Hshown; [|done].
apply andb_true_iff in Hshown as [_ Hany].
destruct (dates_min_max_Some _ Hany) as (a & b & Ha & Hb). rewrite Ha, Hb.
simpl. apply filter_keep_all. intros r Hr. apply mask_date_spec.
destruct Hdates as [Hall|Hnone].
- destruct (Hall r Hr) as [d Hd]. exists d.
  assert (Some d ∈ post_date_dt <$> f).
  { rewrite <- Hd. by apply list_elem_of_fmap_2. }
  split_and!; [done|by eapply dates_min_le|by eapply dates_max_ge].
- apply existsb_exists in Hany as (x & Hx & Hnn).
  apply list_elem_of_In, list_elem_of_fmap in Hx as (r' & -> & Hr').
  rewrite (Hnone r' Hr') in Hnn. done.
Qed.

Lemma default_prices_keep_all f :
(∀ r, r ∈ f → 0 ≤ price r ∧ price r ≤ 100000) →
price_stage f (choose_prices f None) f = f.
Proof.
intros Hprices. unfold price_stage.
destruct (negb (bool_decide (f = []))) eqn:Hf; [|done].
apply filter_keep_all. intros r Hr. apply mask_price_spec.
unfold choose_prices, slider_max.
destruct (prices_max (price <$> f)) as [m|] eqn:Hmax; simpl.
- destruct (prices_max_spec _ _ Hmax) as [_ Hub].
  specialize (Hub (price r) (list_elem_of_fmap_2 _ _ _ Hr)).
  specialize (Hprices r Hr). unfold price_cap. lia.
- destruct f; [by apply elem_of_nil in Hr|done].
Qed.

(** The reductions on the dates do not raise on a column without nulls,
    nor on a column of nulls. *)
Lemma reductions_accept_uniform f :
(∀ r, r ∈ f → is_Some (post_date_dt r)) ∨ (∀ r, r ∈ f → post_date_dt r = None) →
date_error f = None.
Proof.
intros [Hall|Hnone]; unfold date_error, reduction_error.
- replace (forallb notnull (post_date_dt <$> f)) with true;
    [by rewrite andb_false_r|].
  symmetry. apply forallb_forall. intros x Hx.
  apply list_elem_of_In, list_elem_of_fmap in Hx as (r & -> & Hr).
  by destruct (Hall r Hr) as [d ->].
- replace (existsb notnull (post_date_dt <$> f)) with false; [done|].
  symmetry. apply not_true_is_false. intros (x & Hx & Hnn)%existsb_exists.
  apply list_elem_of_In, list_elem_of_fmap in Hx as (r & -> & Hr).
  by rewrite (Hnone r Hr) in Hnn.
Qed.

(** The slider is given two different bounds when some price is above 0
    and none is below. *)
Lemma slider_accepts_positive f :
(∀ r, r ∈ f → 0 ≤ price r) →
(f ≠ [] → ∃ r, r ∈ f ∧ 0 < price r) →
slider_error f = None.
Proof.
intros Hprices Hpositive. unfold slider_error, slider_max.
destruct (prices_max (price <$> f)) as [m|] eqn:Hmax; [|done]. simpl.
destruct (prices_max_spec _ _ Hmax) as [_ Hub].
destruct Hpositive as (r & Hr & Hpos).
{ intros ->. done. }
specialize (Hub (price r) (list_elem_of_fmap_2 _ _ _ Hr)).
rewrite bool_decide_eq_false_2; [done|]. unfold price_cap. lia.
Qed.

(** C1, amended: when every loaded price lies in [0, 100000], some
    loaded price is above 0 unless nothing was loaded, and either every
    row or no row has a normalized date, a run with no keyword, no seller
    and both range widgets at their defaults ends normally with
    [rows == L] and [filtered_count == total_count == len(L)]. *)
Theorem no_constraints_identity db s f :
load_data db = inr f →
(∀ r, r ∈ f → 0 ≤ price r ∧ price r ≤ 100000) →
(f ≠ [] → ∃ r, r ∈ f ∧ 0 < price r) →
(∀ r, r ∈ f → is_Some (post_date_dt r)) ∨ (∀ r, r ∈ f → post_date_dt r = None) →
∃ o s',
  body db no_constraints s = (inr o, s')
  ∧ rows o = f
  ∧ filtered_count o = len f
  ∧ total_count o = len f.
Proof.
intros Hload Hprices Hpositive Hdates.
destruct (body_returns db no_constraints s f f Hload) as (o & s' & Hrun & Hrows).
{ by apply reductions_accept_uniform. }
{ apply slider_accepts_positive; [|done]. intros r Hr. by apply Hprices. }
{ unfold filter_pass, no_constraints. simpl.
  by rewrite default_dates_keep_all, default_prices_keep_all. }
exists o, s'. split; [done|].
destruct (body_success _ _ _ _ _ Hrun)
  as (f' & Hload' & _ & _ & _ & _ & _ & Htot & Hcnt & _).
rewrite Hload in Hload'. injection Hload' as <-.
by rewrite Hcnt, Htot, Hrows.
Qed.

Lemma prices_mean_cons (g : list Row) :
g ≠ [] →
prices_mean (price <$> g)
= Some (prices_sum (price <$> g) # Pos.of_nat (length g)).
Proof. destruct g; [done|]. intros _. simpl. by rewrite length_fmap. Qed.

Lemma average_quot (g : list Row) :
g ≠ [] → average g = prices_sum (price <$> g) ÷ len g.
Proof.
intros Hg. unfold average. rewrite prices_mean_cons by done.
rewrite py_int_quot. f_equal. unfold len.
destruct g as [|r g]; [done|]. simpl length.
by rewrite <- positive_nat_Z, Nat2Pos.id.
Qed.

Lemma prices_sum_nonneg (g : list Row) :
(∀ r, r ∈ g → 0 ≤ price r) → 0 ≤ prices_sum (price <$> g).
Proof.
induction g as [|r g IH]; intros Hall; [done|].
assert (0 ≤ price r) by (apply Hall; left).
assert (0 ≤ prices_sum (price <$> g)) by (apply IH; intros; apply Hall; by right).
change (0 ≤ price r + prices_sum (price <$> g)). lia.
Qed.

(** C2, amended: for an empty filtered result [average_price] is 0; for a
    non-empty one it is the mean of the prices truncated toward zero,
    [int(mean)], that is the quotient of their sum by [filtered_count];
    with non-negative prices this is the floor of the mean. *)
Theorem average_price_truncates db ui s o s' :
body db ui s = (inr o, s') →
(rows o = [] → average_price o = 0)
∧ (rows o ≠ [] →
   average_price o = prices_sum (price <$> rows o) ÷ filtered_count o
   ∧ ((∀ r, r ∈ rows o → 0 ≤ price r) →
      filtered_count o * average_price o ≤ prices_sum (price <$> rows o)
      ∧ prices_sum (price <$> rows o)
        < filtered_count o * (average_price o + 1))).
Proof.
intros Hrun.
destruct (body_success _ _ _ _ _ Hrun)
  as (f & _ & _ & _ & _ & _ & _ & _ & Hcnt & Havg & _).
rewrite Havg, Hcnt. split.
- by intros ->.
- intros Hne. rewrite average_quot by done. split; [done|].
  intros Hpos%prices_sum_nonneg.
  assert (0 < len (rows o)).
  { unfold len. destruct (rows o); [done|]. simpl. lia. }
  rewrite Z.quot_div_nonneg by lia.
  pose proof (Z.mul_div_le (prices_sum (price <$> rows o)) (len (rows o))).
  pose proof (Z.mul_succ_div_gt (prices_sum (price <$> rows o)) (len (rows o))).
  lia.
Qed.
End Defaults.


#[global] Instance newer_first_trans : Transitive newer_first.
Proof. unfold newer_first. intros a b c ??. lia. Qed.

#[global] Instance newer_first_total : Total newer_first.
Proof. unfold newer_first. intros a b. lia. Qed.

Section Loading.
Context `{Pandas}.

Lemma to_datetime_error_None col :
  to_datetime_error col = None → ∀ s, s ∈ col → ∃ d, to_datetime s = inr d.
Proof.
  induction col as [|x col IH]; simpl; intros Hnone s Hs.
  { by apply elem_of_nil in Hs. }
  destruct (to_datetime x) as [e|d] eqn:Hx; [done|].
  apply elem_of_cons in Hs as [->|Hs]; [by exists d|by apply IH].
Qed.

Lemma to_datetime_error_Some col e :
  to_datetime_error col = Some e → ∃ s, s ∈ col ∧ to_datetime s = inl e.
Proof.
  induction col as [|x col IH]; simpl; [done|].
  destruct (to_datetime x) as [e'|d] eqn:Hx.
  - intros [= ->]. exists x. split; [left|done].
  - intros (s & Hs & He)%IH. exists s. split; [by right|done].
Qed.

Lemma load_data_table t f :
  load_data (Table t) = inr f →
  to_datetime_error (db_post_date <$> order_by_id_desc t) = None
  ∧ f = select_row <$> order_by_id_desc t.
Proof.
  simpl. destruct (to_datetime_error _); [done|]. by intros [= <-].
Qed.

Lemma load_data_length t f : load_data (Table t) = inr f → length f = length t.
Proof.
  intros [_ ->]%load_data_table. unfold order_by_id_desc.
  by rewrite length_fmap, (merge_sort_Permutation newer_first t).
Qed.

(** A frame built row by row from rows on none of which the parser has
    raised. *)
Lemma select_rows_columns (q : list DbRow) :
  (∀ r, r ∈ q → ∃ d, to_datetime (db_post_date r) = inr d) →
  Forall2 (λ r row, same_columns r row
                    ∧ to_datetime (db_post_date r) = inr (post_date_dt row))
    q (select_row <$> q).
Proof.
  induction q as [|r q IH]; intros Hq; csimpl; constructor.
  - destruct (Hq r) as [d Hd]; [left|]. split; [by repeat split|].
    simpl. by rewrite Hd.
  - apply IH. intros r' Hr'. apply Hq. by right.
Qed.

(** Loading a table: the rows by descending [id], each with its six
    columns and the date the parser gave, or the exception the parser
    raised on the date of a row. *)
Lemma load_data_spec t :
  ∃ q,
    q ≡ₚ t
    ∧ StronglySorted (λ a b, id b ≤ id a) q
    ∧ match load_data (Table t) with
      | inr f =>
          Forall2 (λ r row, same_columns r row
                            ∧ to_datetime (db_post_date r) = inr (post_date_dt row))
            q f
      | inl e => ∃ r, r ∈ t ∧ to_datetime (db_post_date r) = inl e
      end.
Proof.
  exists (order_by_id_desc t).
  assert (Hperm : order_by_id_desc t ≡ₚ t)
    by apply (merge_sort_Permutation newer_first).
  split_and!; [done|apply (StronglySorted_merge_sort newer_first)|].
  simpl. destruct (to_datetime_error _) as [e|] eqn:Herr.
  - apply to_datetime_error_Some in Herr as (s & Hs & He).
    apply list_elem_of_fmap in Hs as (r & -> & Hr). exists r.
    split; [by rewrite <- Hperm|done].
  - apply select_rows_columns. intros r Hr.
    apply (to_datetime_error_None _ Herr). by apply list_elem_of_fmap_2.
Qed.
End Loading.

Section Page.
Context `{Pandas}.

Lemma page_run db ui :
(page db ui start).1 = inr ()
∧ render db ui
  = match body db ui (State ∅ heading) with
    | (inl e, s') => out s' ++ [EError (error_prefix +:+ e)] ++ footer
    | (inr _, s') => out s' ++ footer
    end.
Proof.
unfold render, page, try_except, mbind, M_bind, emit, mret, M_ret, start.
simpl. change [ETitle _; EMarkdown rule] with heading.
destruct (body db ui (State ∅ heading)) as [[e|o] s']; simpl.
- split; [done|]. by rewrite <- !app_assoc.
- split; [done|]. by rewrite <- !app_assoc.
Qed.

Lemma sidebar_no_error f : Forall (λ x, is_error x = false) (sidebar f).
Proof.
unfold sidebar, date_widget, slider_widget. rewrite !Forall_app. split_and!.
- by repeat constructor.
- destruct (dates_min (post_date_dt <$> f)), (dates_max (post_date_dt <$> f));
    by repeat constructor.
- destruct (slider_max f); by repeat constructor.
Qed.

Lemma main_column_no_error f g keyword author_keyword :
Forall (λ x, is_error x = false) (main_column f g keyword author_keyword).
Proof. unfold main_column. case_bool_decide; by repeat constructor. Qed.

Lemma sidebar_before_slider_prefix f :
sidebar_before_slider f `prefix_of` sidebar f.
Proof.
exists (slider_widget f). unfold sidebar, sidebar_before_slider.
by rewrite <- !app_assoc.
Qed.

Lemma sidebar_before_slider_no_error f :
Forall (λ x, is_error x = false) (sidebar_before_slider f).
Proof.
pose proof (sidebar_no_error f) as Hside.
destruct (sidebar_before_slider_prefix f) as [k Hk]. rewrite Hk in Hside.
by apply Forall_app in Hside as [? _].
Qed.

Lemma filter_no_error (es : list element) :
Forall (λ x, is_error x = false) es → filter (λ x, is_error x) es = [].
Proof.
induction 1 as [|x es Hx Hes IH]; [done|].
rewrite filter_cons_False; [exact IH|]. rewrite Hx. by intros [].
Qed.

(** The page of a failed load: the heading, the message, the footer. *)
Lemma render_load_failure db ui e :
load_data db = inl e →
render db ui = heading ++ [EError (error_prefix +:+ e)] ++ footer.
Proof.
intros Hload. destruct (page_run db ui) as [_ Hrender]. rewrite Hrender.
pose proof (body_spec db ui (State ∅ heading)) as Hpost.
unfold wp, body_post in Hpost. rewrite Hload in Hpost.
destruct (body db ui (State ∅ heading)) as [r s']. simpl in Hpost.
by destruct Hpost as [-> ->].
Qed.

(** C7, amended: the page itself never raises.  An exception raised in
    the guarded block, by the load, by a reduction on the dates, by the
    slider or by the filter pass,
    is caught by the one handler and shown as one error element whose
    text is the fixed prefix followed by the message of the exception; no
    other element of the page is an error element, and a normal run shows
    none.  What was rendered before the failure stays: nothing after a
    failed load, and otherwise a leading part of the sidebar; the rest of
    the guarded block is skipped and the footer follows. *)
Theorem errors_reported_once db ui :
(page db ui start).1 = inr ()
∧ ∃ es,
    out (body db ui (State ∅ heading)).2 = heading ++ es
    ∧ Forall (λ x, is_error x = false) es
    ∧ match (body db ui (State ∅ heading)).1 with
      | inl e =>
          render db ui = heading ++ es ++ [EError (error_prefix +:+ e)] ++ footer
          ∧ filter (λ x, is_error x) (render db ui)
            = [EError (error_prefix +:+ e)]
          ∧ match load_data db with
            | inl e' => e' = e ∧ es = []
            | inr f => es `prefix_of` sidebar f
            end
      | inr o =>
          render db ui = heading ++ es ++ footer
          ∧ filter (λ x, is_error x) (render db ui) = []
          ∧ ∃ f, load_data db = inr f
                 ∧ es = sidebar f
                        ++ main_column f (rows o) (ui_keyword ui) (ui_author ui)
      end.
Proof.
destruct (page_run db ui) as [Hret Hrender]. split; [done|].
assert (Hframe : ∀ es : list element,
  Forall (λ x, is_error x = false) es →
  filter (λ x, is_error x) (heading ++ es ++ footer) = []
  ∧ ∀ e, filter (λ x, is_error x)
           (heading ++ es ++ [EError (error_prefix +:+ e)] ++ footer)
         = [EError (error_prefix +:+ e)]).
{ intros es Hes. split; [|intros e]; rewrite !filter_app, (filter_no_error es Hes);
    reflexivity. }
destruct (body db ui (State ∅ heading)) as [[e|o] s'] eqn:Hrun;
  cbn [fst snd] in *.
- destruct (body_failure _ _ _ _ _ Hrun)
    as [[Hload ->]|(f & Hload & [[Hd Hout]|[(Hd & Hs & Hout)
                                           |(Hd & Hs & Hpass & Hout)]])];
    rewrite Hload.
  + exists []. rewrite app_nil_r. split_and!; [done|done|..|done|done].
    * by rewrite Hrender.
    * rewrite Hrender. apply (Hframe []). done.
  + exists sidebar_before_dates.
    assert (Hes : Forall (λ x, is_error x = false) sidebar_before_dates)
      by by repeat constructor.
    split_and!; [done|done|..].
    * by rewrite Hrender, Hout, <- app_assoc.
    * rewrite Hrender, Hout, <- app_assoc. by apply Hframe.
    * by exists (date_widget f ++ slider_widget f).
  + exists (sidebar_before_slider f).
    pose proof (sidebar_before_slider_no_error f) as Hes.
    split_and!; [done|done|..].
    * by rewrite Hrender, Hout, <- app_assoc.
    * rewrite Hrender, Hout, <- app_assoc. by apply Hframe.
    * apply sidebar_before_slider_prefix.
  + exists (sidebar f). pose proof (sidebar_no_error f) as Hes.
    split_and!; [done|done|..|done].
    * by rewrite Hrender, Hout, <- app_assoc.
    * rewrite Hrender, Hout, <- app_assoc. by apply Hframe.
- destruct (body_success _ _ _ _ _ Hrun)
    as (f & Hload & _ & _ & _ & _ & _ & _ & _ & _ & _ & _ & _ & _ & _ & Hout).
  exists (sidebar f ++ main_column f (rows o) (ui_keyword ui) (ui_author ui)).
  assert (Hes : Forall (λ x, is_error x = false)
            (sidebar f ++ main_column f (rows o) (ui_keyword ui) (ui_author ui))).
  { apply Forall_app. split; [apply sidebar_no_error|apply main_column_no_error]. }
  split_and!; [done|done|..].
  + by rewrite Hrender, Hout, <- app_assoc.
  + rewrite Hrender, Hout, <- app_assoc. by apply Hframe.
  + by exists f.
Qed.
End Page.

(** C6: the claim says that loading gives the listings by descending
    [id] and that a [post_date] that does not parse gives an absent date
    and never an exception.  The first part holds: whatever pandas does,
    a load that returns gives a permutation of the table sorted by
    descending [id], each row with its six columns unchanged and the date
    the parser gave, absent when the parser gave NaT; no row is lost.
    The second part fails where [pd.to_datetime] raises in spite of
    [errors='coerce'], as pandas 3.1.0 does on [0000/01/01]: the load
    raises with that exception, on a table on which a parser that gives
    NaT keeps the row with an absent date, and the page shows the error
    message only. *)
Theorem load_data_newest_first :
  (∀ (P : Pandas) (t : list DbRow),
     ∃ q,
       q ≡ₚ t
       ∧ StronglySorted (λ a b, id b ≤ id a) q
       ∧ match load_data (Table t) with
         | inr f =>
             Forall2 (λ r row,
                        same_columns r row
                        ∧ to_datetime (db_post_date r) = inr (post_date_dt row))
               q f
         | inl e => ∃ r, r ∈ t ∧ to_datetime (db_post_date r) = inl e
         end)
  ∧ (∀ e,
       @load_data (raising_on "0000/01/01" e py_engine) year_zero = inl e
       ∧ @render (raising_on "0000/01/01" e py_engine) year_zero no_constraints
         = heading ++ [EError (error_prefix +:+ e)] ++ footer)
  ∧ @load_data py_engine year_zero = inr [old_bottle].
Proof.
  split_and!.
  - intros P t. apply load_data_spec.
  - intros e. assert (Hload :
      @load_data (raising_on "0000/01/01" e py_engine) year_zero = inl e)
      by reflexivity.
    split; [done|]. by apply render_load_failure.
  - reflexivity.
Qed.


(** ** Literal patterns of the fragment *)

Lemma match_here_literal (p s : list ascii) :
  PyRe.match_here (PyRe.Lit <$> p) s = true ↔
  ∃ post, PyRe.lower <$> s = (PyRe.lower <$> p) ++ post.
Proof.
  revert s. induction p as [|c p IH]; intros s; csimpl.
  - split; [eauto|done].
  - destruct s as [|x s]; csimpl.
    + split; [done|]. by intros [post ?].
    + rewrite andb_true_iff, IH, Ascii.eqb_eq. split.
      * intros [-> [post ->]]. by exists post.
      * intros [post [= -> ->]]. eauto.
Qed.

Lemma search_literal (p s : list ascii) :
  PyRe.search (PyRe.Lit <$> p) s = true ↔
  ∃ pre post, PyRe.lower <$> s = pre ++ (PyRe.lower <$> p) ++ post.
Proof.
  induction s as [|x s IH]; csimpl.
  - rewrite orb_false_r, match_here_literal. split.
    + intros [post Hs]. by exists [], post.
    + intros (pre & post & Hs). symmetry in Hs.
      apply app_eq_nil in Hs as [-> Hs]. by exists post.
  - rewrite orb_true_iff, match_here_literal, IH. split.
    + intros [[post Hs]|(pre & post & Hs)].
      * by exists [], post.
      * exists (PyRe.lower x :: pre), post. csimpl. by rewrite Hs.
    + intros ([|y pre] & post & Hs).
      * left. by exists post.
      * right. injection Hs as _ Hs. by exists pre, post.
Qed.

Lemma substring_ci_search kw s :
  substring_ci kw s ↔
  PyRe.search (PyRe.Lit <$> list_ascii_of_string kw) (list_ascii_of_string s) = true.
Proof. unfold substring_ci. by rewrite search_literal. Qed.

Lemma literal_plain (p : list ascii) :
  forallb (λ c, (code c <? 128) && negb (PyRe.special c)) p = true →
  PyRe.plain p = true ∧ PyRe.atom_of <$> p = PyRe.Lit <$> p
  ∧ match p with c :: _ => PyRe.repeat_sign c = false | [] => True end.
Proof.
  intros Hlit. split_and!.
  - unfold PyRe.plain. rewrite forallb_forall in *. intros c Hc.
    specialize (Hlit c Hc). apply andb_true_iff in Hlit as [-> ->].
    by rewrite orb_true_r.
  - induction p as [|c p IH]; [done|]. simpl in Hlit.
    apply andb_true_iff in Hlit as [Hc Hp]. rewrite !fmap_cons, IH by done.
    f_equal. unfold PyRe.atom_of. destruct (Ascii.eqb_spec c "."%char) as [->|]; [|done].
    by vm_compute in Hc.
  - destruct p as [|c p]; [done|]. simpl in Hlit.
    apply andb_true_iff in Hlit as [Hc _]. apply andb_true_iff in Hc as [_ Hc].
    unfold PyRe.repeat_sign. apply bool_decide_eq_false. intros Hin.
    apply negb_true_iff, bool_decide_eq_false in Hc. apply Hc.
    repeat (apply elem_of_cons in Hin as [->|Hin]; [by vm_compute; set_solver|]).
    by apply elem_of_nil in Hin.
Qed.

Lemma compile_literal rest kw :
  literal kw = true →
  @re_compile (PyRe.engine rest) kw
  = inr (inl (PyRe.Lit <$> list_ascii_of_string kw)).
Proof.
  intros Hlit. unfold literal in Hlit.
  destruct (literal_plain _ Hlit) as (Hplain & Hatoms & Hfirst).
  simpl. unfold PyRe.classify.
  destruct (list_ascii_of_string kw) as [|c p]; [done|].
  by rewrite Hfirst, Hplain, Hatoms.
Qed.

(** On a keyword without special characters the keyword filter is the
    case-insensitive substring test on either field. *)
Lemma keyword_stage_literal rest kw g :
  literal kw = true → kw ≠ "" →
  ∃ g', @keyword_stage (PyRe.engine rest) kw g = inr g'
    ∧ ∀ r, r ∈ g' ↔
           r ∈ g ∧ (substring_ci kw (product_name r) ∨ substring_ci kw (title r)).
Proof.
  intros Hlit Hne. unfold keyword_stage, str_contains.
  rewrite bool_decide_eq_true_2 by done. rewrite compile_literal by done.
  eexists. split; [done|]. intros r.
  rewrite list_elem_of_filter, orb_True, !substring_ci_search. simpl.
  rewrite !Is_true_true. tauto.
Qed.

(** Inside the fragment the answer does not depend on the other engine. *)
Lemma fragment_independent rest1 rest2 pat :
  PyRe.classify (list_ascii_of_string pat) ≠ PyRe.Beyond →
  match @re_compile (PyRe.engine rest1) pat, @re_compile (PyRe.engine rest2) pat with
  | inl e1, inl e2 => e1 = e2
  | inr r1, inr r2 =>
      ∀ s, @re_search (PyRe.engine rest1) r1 s = @re_search (PyRe.engine rest2) r2 s
  | _, _ => False
  end.
Proof. simpl. by destruct (PyRe.classify _). Qed.


Example fragment_patterns :
  PyRe.classify (list_ascii_of_string "macallan") ≠ PyRe.Beyond
  ∧ PyRe.classify (list_ascii_of_string "12.7") ≠ PyRe.Beyond
  ∧ PyRe.classify (list_ascii_of_string "?") ≠ PyRe.Beyond.
Proof. by vm_compute. Qed.

Example load_two_listings : load_data two_listings = inr [hibiki; macallan].
Proof. reflexivity. Qed.

Example scenario_keyword :
  @body py_engine two_listings (typed "macallan") start
  = (inr keyword_outcome, keyword_state)
  ∧ rows keyword_outcome = [macallan]
  ∧ filtered_count keyword_outcome = 1
  ∧ average_price keyword_outcome = 3000.
Proof. split; [vm_compute; reflexivity|]. by vm_compute. Qed.

Example scenario_price_range :
  (@body py_engine two_listings
     {| ui_keyword := ""; ui_author := ""; ui_dates := None;
        ui_prices := Some (5000, 12000) |} start).1
  = inr (Outcome 1%positive "" "" [Date 2024 1 1; Date 2024 6 1] (5000, 12000)
           4%positive 2 1 12000 [hibiki]).
Proof. vm_compute. reflexivity. Qed.

Example scenario_date_range :
  rows (result_of (@body py_engine two_listings
     {| ui_keyword := ""; ui_author := "";
        ui_dates := Some [Date 2024 3 1; Date 2024 12 31];
        ui_prices := None |} start))
  = [hibiki].
Proof. vm_compute. reflexivity. Qed.

(** *** C1: no constraints *)

(** With no constraints, a listing priced above 100000 is dropped; the
    rows shown are not the loaded rows when one listing has a normalized
    date and another has none; and a table whose largest price is 0 ends
    in the exception of the slider. *)
Lemma no_constraints_drops_rows :
  (load_data with_outlier = inr [karuizawa]
   ∧ @body py_engine with_outlier no_constraints start
     = (inr outlier_outcome, outlier_state)
   ∧ rows outlier_outcome ≠ [karuizawa]
   ∧ filtered_count outlier_outcome ≠ total_count outlier_outcome)
  ∧ (load_data with_undated = inr [hibiki; undated]
     ∧ rows (result_of (@body py_engine with_undated no_constraints start))
       ≠ [hibiki; undated])
  ∧ (load_data giveaway = inr [glass]
     ∧ @body py_engine giveaway no_constraints start
       = (inl (slider_bounds_error 0 0), giveaway_state)
     ∧ Forall (λ x, is_dataframe x = false) (out giveaway_state)).
Proof.
  split_and!; first [reflexivity | vm_compute; reflexivity | by vm_compute | idtac].
  vm_compute. by repeat constructor.
Qed.

Lemma no_constraints_identity_witness :
  load_data two_listings = inr [hibiki; macallan]
  ∧ ∃ o s',
      @body py_engine two_listings no_constraints start = (inr o, s')
      ∧ rows o = [hibiki; macallan]
      ∧ filtered_count o = len [hibiki; macallan]
      ∧ total_count o = len [hibiki; macallan].
Proof.
  split; [reflexivity|].
  apply (@no_constraints_identity py_engine two_listings start [hibiki; macallan]).
  - reflexivity.
  - intros r Hr. repeat (apply elem_of_cons in Hr as [->|Hr]; [by vm_compute|]).
    by apply elem_of_nil in Hr.
  - intros _. exists hibiki. split; [left|by vm_compute].
  - left. intros r Hr.
    repeat (apply elem_of_cons in Hr as [->|Hr]; [by eexists|]).
    by apply elem_of_nil in Hr.
Defined.

(** *** C2: the average *)

(** Prices 1, 2, 2: the mean 5/3 rounds to 2, the metric shows 1. *)
Lemma average_price_is_not_rounded :
  @body py_engine miniatures no_constraints start
  = (inr miniatures_outcome, miniatures_state)
  ∧ rows miniatures_outcome ≠ []
  ∧ prices_mean (price <$> rows miniatures_outcome) = Some (5 # 3)
  ∧ py_round (5 # 3) = 2
  ∧ average_price miniatures_outcome = 1
  ∧ average_price miniatures_outcome ≠ py_round (5 # 3).
Proof. split_and!; [vm_compute; reflexivity|by vm_compute..]. Qed.

Lemma average_price_truncates_witness :
  @body py_engine miniatures no_constraints start
  = (inr miniatures_outcome, miniatures_state)
  ∧ average_price miniatures_outcome
    = prices_sum (price <$> rows miniatures_outcome)
      ÷ filtered_count miniatures_outcome.
Proof.
  split; [vm_compute; reflexivity|].
  apply (@average_price_truncates py_engine miniatures no_constraints start
           miniatures_outcome miniatures_state);
    [vm_compute; reflexivity|by vm_compute].
Defined.

(** *** C3: the keyword is a pattern *)

(** C3: the keyword filter is specified as a case-insensitive substring
    test on [title] or [product_name].  The script hands the keyword to
    [str.contains] as a regular expression: with the keyword [12.7] the
    listing "Macallan 12 700ml" is kept although [12.7] occurs in neither
    field, and with the keyword [?] the run raises instead of keeping
    the listing "Yamazaki 18?". *)
Theorem keyword_is_a_pattern :
  (@body py_engine bottles (typed "12.7") start = (inr dotted_outcome, dotted_state)
   ∧ rows dotted_outcome = [macallan_700]
   ∧ ¬ substring_ci "12.7" (title macallan_700)
   ∧ ¬ substring_ci "12.7" (product_name macallan_700))
  ∧ (load_data bottles = inr [macallan_700; yamazaki]
     ∧ substring_ci "?" (title yamazaki)
     ∧ @body py_engine bottles (typed "?") start
       = (inl "nothing to repeat at position 0", question_state)).
Proof.
  split_and!; try (vm_compute; reflexivity).
  - rewrite substring_ci_search. by vm_compute.
  - rewrite substring_ci_search. by vm_compute.
  - rewrite substring_ci_search. by vm_compute.
Qed.

(** *** C4, C5, C8, C9, C10 on concrete runs *)

(** The date range is [2024-01-01, 2024-06-01]: the listing dated on the
    first day and the listing dated on the last day are both kept. *)
Lemma date_filter_when_both_bounds_witness :
  load_data two_listings = inr [hibiki; macallan]
  ∧ @body py_engine two_listings no_constraints start
    = (inr defaults_outcome, defaults_state)
  ∧ v_date_range defaults_outcome = [Date 2024 1 1; Date 2024 6 1]
  ∧ post_date_dt macallan = Some (Date 2024 1 1)
  ∧ post_date_dt hibiki = Some (Date 2024 6 1)
  ∧ macallan ∈ rows defaults_outcome
  ∧ hibiki ∈ rows defaults_outcome
  ∧ rows defaults_outcome = [hibiki; macallan].
Proof.
  destruct (@date_filter_when_both_bounds py_engine two_listings
              no_constraints start defaults_outcome defaults_state
              [hibiki; macallan])
    as (g1 & g2 & H1 & H2 & Hboth & _); [reflexivity|vm_compute; reflexivity|].
  injection H1 as <-. injection H2 as <-.
  destruct (Hboth (Date 2024 1 1) (Date 2024 6 1) eq_refl) as (_ & Hends & _).
  split_and!; [reflexivity|vm_compute; reflexivity|reflexivity..| | |reflexivity].
  - apply Hends;
      [right; left|by vm_compute|unfold not_after; simpl; lia|by left].
  - apply Hends;
      [left|by vm_compute|unfold not_after; simpl; lia|by right].
Defined.

Lemma price_filter_inclusive_witness :
  load_data two_listings = inr [hibiki; macallan]
  ∧ @body py_engine two_listings (typed "macallan") start
    = (inr keyword_outcome, keyword_state)
  ∧ v_price_range keyword_outcome = (0, 12000)
  ∧ ∀ r, r ∈ rows keyword_outcome → 0 ≤ price r ∧ price r ≤ 12000.
Proof.
  split_and!; [reflexivity|vm_compute; reflexivity|reflexivity|].
  destruct (@price_filter_inclusive py_engine two_listings
              (typed "macallan") start keyword_outcome keyword_state
              [hibiki; macallan])
    as [(g1 & g2 & g3 & _ & _ & _ & Hmem & _) _];
    [reflexivity|vm_compute; reflexivity|].
  intros r Hr. by apply Hmem in Hr as (_ & Hlo & Hhi).
Defined.

(** A table with a listing at 150000 and the range (2000, 100000) picked
    on the slider, whose bounds are 0 and 100000: the listing at 150000
    is not shown. *)
Lemma price_cap_bounds_result_witness :
  load_data cellar = inr [karuizawa; macallan]
  ∧ price karuizawa = 150000
  ∧ ui_prices cellar_ui = Some (2000, 100000)
  ∧ slider_max [karuizawa; macallan] = Some 100000
  ∧ slider_in_bounds [karuizawa; macallan] cellar_ui
  ∧ @body py_engine cellar cellar_ui start = (inr cellar_outcome, cellar_state)
  ∧ (∀ r, r ∈ rows cellar_outcome → price r ≤ 100000)
  ∧ karuizawa ∉ rows cellar_outcome.
Proof.
  assert (Hslider : slider_in_bounds [karuizawa; macallan] cellar_ui).
  { intros sel top Hsel Htop. injection Hsel as <-. vm_compute in Htop.
    injection Htop as <-. simpl. lia. }
  destruct (@price_cap_bounds_result py_engine cellar cellar_ui start
              cellar_outcome cellar_state [karuizawa; macallan])
    as (m & _ & _ & _ & _ & _ & Hrows);
    [reflexivity|discriminate|exact Hslider|vm_compute; reflexivity|].
  split_and!;
    [reflexivity|reflexivity|reflexivity|reflexivity|exact Hslider
    |vm_compute; reflexivity|exact Hrows|].
  intros Hin. apply Hrows in Hin. vm_compute in Hin. by apply Hin.
Defined.

Lemma filtered_rows_sublist_witness :
  load_data two_listings = inr [hibiki; macallan]
  ∧ @body py_engine two_listings (typed "macallan") start
    = (inr keyword_outcome, keyword_state)
  ∧ rows keyword_outcome `sublist_of` [hibiki; macallan].
Proof.
  split_and!; [reflexivity|vm_compute; reflexivity|].
  apply (@filtered_rows_sublist py_engine two_listings (typed "macallan") start
           keyword_outcome keyword_state [hibiki; macallan]);
    [reflexivity|vm_compute; reflexivity].
Defined.

Lemma loaded_frame_unchanged_witness :
  load_data two_listings = inr [hibiki; macallan]
  ∧ ∀ ui1 ui2 s1 s2 o1 o2,
      (@body py_engine two_listings ui1 s1).1 = inr o1 →
      (@body py_engine two_listings ui2 s2).1 = inr o2 →
      total_count o1 = total_count o2.
Proof.
  split; [reflexivity|].
  apply (@loaded_frame_unchanged py_engine two_listings [hibiki; macallan]).
  reflexivity.
Defined.

(** *** C7: what is on the page after a failure *)

(** The keyword [?] makes the filter pass raise after the sidebar has been
    rendered: the page then holds more than the error message. *)
Lemma sidebar_stays_after_failure :
  @body py_engine bottles (typed "?") (State ∅ heading)
  = (inl "nothing to repeat at position 0",
     State (heap question_state) (heading ++ out question_state))
  ∧ @render py_engine bottles (typed "?")
    ≠ heading ++ [EError (error_prefix +:+ "nothing to repeat at position 0")]
      ++ footer
  ∧ ESidebarHeader "🔍 綜合篩選條件" ∈ @render py_engine bottles (typed "?").
Proof.
  split_and!; [vm_compute; reflexivity|by vm_compute|].
  vm_compute. set_solver.
Qed.

(* ===================================================================== *)
(** * Further properties of the script *)
(* ===================================================================== *)

(** ** Lists *)

Lemma filter_sublist_mono {A} (P : A → Prop) `{!∀ x, Decision (P x)} (l k : list A) :
  l `sublist_of` k → filter P l `sublist_of` filter P k.
Proof.
  induction 1 as [|x l k Hlk IH|x l k Hlk IH].
  - done.
  - rewrite !filter_cons. destruct (decide (P x)); [by constructor|done].
  - rewrite (filter_cons _ x k). destruct (decide (P x)); [by constructor|done].
Qed.

Lemma filter_sublist_impl {A} (P Q : A → Prop)
    `{!∀ x, Decision (P x), !∀ x, Decision (Q x)} (l : list A) :
  (∀ x, x ∈ l → P x → Q x) → filter P l `sublist_of` filter Q l.
Proof.
  induction l as [|x l IH]; intros Himpl; [done|].
  assert (filter P l `sublist_of` filter Q l) as Hl.
  { apply IH. intros y Hy. apply Himpl. by right. }
  rewrite !filter_cons. destruct (decide (P x)) as [HP|HP].
  - rewrite decide_True by (apply Himpl; [left|done]). by constructor.
  - destruct (decide (Q x)); [by constructor|done].
Qed.

Lemma filter_none {A} (P : A → Prop) `{!∀ x, Decision (P x)} (l : list A) :
  (∀ x, x ∈ l → ¬ P x) → filter P l = [].
Proof.
  induction l as [|x l IH]; intros Hnone; [done|].
  rewrite filter_cons_False by (apply Hnone; left).
  apply IH. intros y Hy. apply Hnone. by right.
Qed.

Lemma sublist_fmap_inv {A B} (h : A → B) (k : list B) (l : list A) :
  k `sublist_of` h <$> l → ∃ l', l' `sublist_of` l ∧ k = h <$> l'.
Proof.
  revert k. induction l as [|x l IH]; intros k Hk.
  - apply sublist_nil_r in Hk as ->. by exists [].
  - rewrite fmap_cons in Hk. apply sublist_cons_r in Hk as [Hk|(k' & -> & Hk)].
    + destruct (IH _ Hk) as (l' & Hl' & ->). exists l'. split; [by constructor|done].
    + destruct (IH _ Hk) as (l' & Hl' & ->). exists (x :: l').
      split; [by constructor|done].
Qed.

Lemma StronglySorted_sublist {A} (R : relation A) (l k : list A) :
  l `sublist_of` k → StronglySorted R k → StronglySorted R l.
Proof.
  induction 1 as [|x l k Hlk IH|x l k Hlk IH]; intros Hk.
  - done.
  - apply StronglySorted_inv in Hk as [Hk Hx]. constructor; [by apply IH|].
    apply Forall_forall. intros y Hy. rewrite Forall_forall in Hx. apply Hx.
    by eapply elem_of_sublist.
  - apply StronglySorted_inv in Hk as [Hk _]. by apply IH.
Qed.

Lemma date_condition_forms (date_range : list date) (r : Row) :
  match date_range with
  | [a; b] => ∃ d, post_date_dt r = Some d
                   ∧ date_leb a d = true ∧ date_leb d b = true
  | _ => True
  end ↔
  ∀ a b, date_range = [a; b] →
    ∃ d, post_date_dt r = Some d ∧ date_leb a d = true ∧ date_leb d b = true.
Proof.
  destruct date_range as [|a [|b [|c l]]]; split; try done.
  - by intros Hd ?? [= <- <-].
  - intros Hd. by apply Hd.
Qed.

Section Composition.
Context `{Pandas}.

(** X1: the four filters compose conjunctively.  After a normal run a row
    is shown exactly when it is a loaded row, the compiled keyword is found
    in its product name or in its title (if a keyword was entered), the
    compiled seller pattern is found in its author (if one was entered),
    its date lies in the date range (if the range has two ends) and its
    price lies in the price range. *)
Theorem filters_compose_conjunctively db ui s o s' f :
  load_data db = inr f →
  body db ui s = (inr o, s') →
  ∃ in_keyword in_seller : string → bool,
    (ui_keyword ui ≠ "" → str_contains (ui_keyword ui) = inr in_keyword)
    ∧ (ui_author ui ≠ "" → str_contains (ui_author ui) = inr in_seller)
    ∧ ∀ r, r ∈ rows o ↔
        r ∈ f
        ∧ (ui_keyword ui ≠ "" →
           in_keyword (product_name r) = true ∨ in_keyword (title r) = true)
        ∧ (ui_author ui ≠ "" → in_seller (author r) = true)
        ∧ (∀ start_date end_date, v_date_range o = [start_date; end_date] →
           ∃ d, post_date_dt r = Some d
                ∧ date_leb start_date d = true ∧ date_leb d end_date = true)
        ∧ (v_price_range o).1 ≤ price r ∧ price r ≤ (v_price_range o).2.
Proof.
  intros Hload Hrun.
  destruct (body_stages _ _ _ _ _ _ Hload Hrun) as (g1 & g2 & H1 & H2 & Hsub & Hrows).
  assert (Hmem : ∀ r, r ∈ rows o ↔
    (r ∈ g2 ∧ match v_date_range o with
              | [a; b] => ∃ d, post_date_dt r = Some d
                               ∧ date_leb a d = true ∧ date_leb d b = true
              | _ => True
              end)
    ∧ (v_price_range o).1 ≤ price r ∧ price r ≤ (v_price_range o).2).
  { intros r. rewrite Hrows.
    rewrite elem_of_price_stage by (etrans; [apply date_stage_sublist|done]).
    by rewrite elem_of_date_stage. }
  unfold keyword_stage in H1. unfold author_stage in H2.
  destruct (decide (ui_keyword ui ≠ "")) as [Hkw|Hkw];
    [rewrite bool_decide_eq_true_2 in H1 by done
    |rewrite bool_decide_eq_false_2 in H1 by done];
  (destruct (decide (ui_author ui ≠ "")) as [Hau|Hau];
    [rewrite bool_decide_eq_true_2 in H2 by done
    |rewrite bool_decide_eq_false_2 in H2 by done]).
  - destruct (str_contains (ui_keyword ui)) as [|ck]; [done|].
    destruct (str_contains (ui_author ui)) as [|ca]; [done|].
    injection H1 as <-. injection H2 as <-. exists ck, ca.
    split_and!; [done|done|]. intros r.
    rewrite Hmem, !list_elem_of_filter, date_condition_forms, orb_True, !Is_true_true. tauto.
  - destruct (str_contains (ui_keyword ui)) as [|ck]; [done|].
    injection H1 as <-. injection H2 as <-. exists ck, (λ _, true).
    split_and!; [done|done|]. intros r.
    rewrite Hmem, !list_elem_of_filter, date_condition_forms, orb_True, !Is_true_true. tauto.
  - destruct (str_contains (ui_author ui)) as [|ca]; [done|].
    injection H1 as <-. injection H2 as <-. exists (λ _, true), ca.
    split_and!; [done|done|]. intros r.
    rewrite Hmem, !list_elem_of_filter, date_condition_forms, !Is_true_true. tauto.
  - injection H1 as <-. injection H2 as <-. exists (λ _, true), (λ _, true).
    split_and!; [done|done|]. intros r. rewrite Hmem, date_condition_forms. tauto.
Qed.
End Composition.

(** ** Text criteria *)

Lemma substring_ci_empty s : substring_ci "" s.
Proof. exists [], (PyRe.lower <$> list_ascii_of_string s). done. Qed.

Lemma keyword_stage_plain rest kw g :
  literal kw = true →
  ∃ g', @keyword_stage (PyRe.engine rest) kw g = inr g'
    ∧ ∀ r, r ∈ g' ↔
           r ∈ g ∧ (substring_ci kw (product_name r) ∨ substring_ci kw (title r)).
Proof.
  intros Hlit. destruct (decide (kw = "")) as [->|Hne].
  - exists g. split; [done|]. intros r. split; [|tauto].
    intros Hr. split; [done|]. left. apply substring_ci_empty.
  - by apply keyword_stage_literal.
Qed.

Lemma author_stage_plain rest au g :
  literal au = true →
  ∃ g', @author_stage (PyRe.engine rest) au g = inr g'
    ∧ ∀ r, r ∈ g' ↔ r ∈ g ∧ substring_ci au (author r).
Proof.
  intros Hlit. destruct (decide (au = "")) as [->|Hne].
  - exists g. split; [done|]. intros r. split; [|tauto].
    intros Hr. split; [done|]. apply substring_ci_empty.
  - unfold author_stage, str_contains.
    rewrite bool_decide_eq_true_2 by done. rewrite compile_literal by done.
    eexists. split; [done|]. intros r.
    rewrite list_elem_of_filter, substring_ci_search. simpl.
    rewrite Is_true_true. tauto.
Qed.

(** X2: in the model of [re] on its fragment, with a keyword and a seller
    entry made of 7-bit characters none of which is a special character
    of the pattern syntax, the rows a normal run shows are the loaded rows
    in which the keyword occurs in the product name or the title and the
    seller entry occurs in the author, the case of the letters A to Z
    ignored, and that pass the date and price ranges.  An empty entry
    imposes nothing. *)
Theorem literal_criteria_are_substring_tests rest db ui s o s' f :
  @load_data (PyRe.engine rest) db = inr f →
  @body (PyRe.engine rest) db ui s = (inr o, s') →
  literal (ui_keyword ui) = true →
  literal (ui_author ui) = true →
  ∀ r, r ∈ rows o ↔
    r ∈ f
    ∧ (substring_ci (ui_keyword ui) (product_name r)
       ∨ substring_ci (ui_keyword ui) (title r))
    ∧ substring_ci (ui_author ui) (author r)
    ∧ (∀ start_date end_date, v_date_range o = [start_date; end_date] →
       ∃ d, post_date_dt r = Some d
            ∧ date_leb start_date d = true ∧ date_leb d end_date = true)
    ∧ (v_price_range o).1 ≤ price r ∧ price r ≤ (v_price_range o).2.
Proof.
  intros Hload Hrun Hkw Hau.
  destruct (@body_stages (PyRe.engine rest) _ _ _ _ _ _ Hload Hrun)
    as (g1 & g2 & H1 & H2 & Hsub & Hrows).
  destruct (keyword_stage_plain rest _ f Hkw) as (g1' & H1' & Hg1).
  rewrite H1 in H1'. injection H1' as <-.
  destruct (author_stage_plain rest _ g1 Hau) as (g2' & H2' & Hg2).
  rewrite H2 in H2'. injection H2' as <-.
  intros r. rewrite Hrows.
  rewrite elem_of_price_stage by (etrans; [apply date_stage_sublist|done]).
  rewrite elem_of_date_stage, Hg2, Hg1, date_condition_forms. tauto.
Qed.

Section EmptyTable.
Context `{Pandas}.

(** X4: on an empty table a normal run shows no date picker and no
    slider, leaves [date_range] empty and [price_range] at (0, 0), puts 0
    in the three metrics and shows the warning instead of a table. *)
Theorem empty_table_run db ui s o s' :
  load_data db = inr [] →
  body db ui s = (inr o, s') →
  rows o = []
  ∧ total_count o = 0 ∧ filtered_count o = 0 ∧ average_price o = 0
  ∧ v_date_range o = [] ∧ v_price_range o = (0, 0)
  ∧ out s' = out s ++
      [ ESidebarHeader "🔍 綜合篩選條件";
        ETextInput "🥃 關鍵字搜尋 (酒名/標題)";
        ETextInput "👤 賣家帳號搜尋";
        EColumns 3;
        EMetric "📦 資料庫總筆數" 0;
        EMetric "🔍 搜尋結果" 0;
        EMetric "💰 平均行情" 0;
        ESubheader (table_title (ui_keyword ui) (ui_author ui));
        EWarning "⚠️ 查無資料！請嘗試放寬篩選條件（例如擴大日期範圍或清空關鍵字）。" ].
Proof.
  intros Hload Hrun.
  destruct (body_success _ _ _ _ _ Hrun)
    as (f & Hload' & _ & _ & Hdr & Hpr & Hpass & Htot & Hcnt & Havg
        & _ & _ & _ & _ & _ & Hout).
  rewrite Hload in Hload'. injection Hload' as <-.
  apply filter_pass_sublist, sublist_nil_r in Hpass.
  rewrite Hpass in *. by split_and!.
Qed.
End EmptyTable.

(** ** Ranges *)

Lemma date_leb_antisym a b :
  date_leb a b = true → date_leb b a = true → a = b.
Proof.
  rewrite !date_leb_spec. destruct a as [ya ma da], b as [yb mb db]. simpl.
  intros Hab Hba. f_equal; lia.
Qed.

Lemma foldl_date_min_in ds : ∀ d, foldl date_min d ds ∈ d :: ds.
Proof.
  induction ds as [|e ds IH]; intros d; simpl; [left|].
  specialize (IH (date_min d e)). apply elem_of_cons in IH as [Heq|Hin].
  - rewrite Heq. unfold date_min. destruct (date_leb d e); [left|right; left].
  - by do 2 right.
Qed.

Lemma foldl_date_max_in ds : ∀ d, foldl date_max d ds ∈ d :: ds.
Proof.
  induction ds as [|e ds IH]; intros d; simpl; [left|].
  specialize (IH (date_max d e)). apply elem_of_cons in IH as [Heq|Hin].
  - rewrite Heq. unfold date_max. destruct (date_leb d e); [right; left|left].
  - by do 2 right.
Qed.

Lemma present_date_inv (col : list (option date)) (x : date) :
  x ∈ omap (λ y, y) col → Some x ∈ col.
Proof. intros (y & Hy & ->)%list_elem_of_omap. done. Qed.

Lemma dates_min_in col a : dates_min col = Some a → Some a ∈ col.
Proof.
  unfold dates_min. intros Ha. apply present_date_inv.
  destruct (omap _ col) as [|d ds]; [done|]. injection Ha as <-.
  apply foldl_date_min_in.
Qed.

Lemma dates_max_in col b : dates_max col = Some b → Some b ∈ col.
Proof.
  unfold dates_max. intros Hb. apply present_date_inv.
  destruct (omap _ col) as [|d ds]; [done|]. injection Hb as <-.
  apply foldl_date_max_in.
Qed.

Lemma date_stage_mono date_range (l k : list Row) :
  l `sublist_of` k → date_stage date_range l `sublist_of` date_stage date_range k.
Proof.
  intros Hlk. unfold date_stage.
  destruct date_range as [|a [|b [|c dr]]]; try done. by apply filter_sublist_mono.
Qed.

Lemma price_stage_mono f price_range (l k : list Row) :
  l `sublist_of` k →
  price_stage f price_range l `sublist_of` price_stage f price_range k.
Proof.
  intros Hlk. unfold price_stage. destruct (negb _); [|done].
  by apply filter_sublist_mono.
Qed.

Lemma price_stage_wider f pr1 pr2 (l : list Row) :
  pr2.1 ≤ pr1.1 → pr1.2 ≤ pr2.2 →
  price_stage f pr1 l `sublist_of` price_stage f pr2 l.
Proof.
  intros Hlo Hhi. unfold price_stage. destruct (negb _); [|done].
  apply filter_sublist_impl. intros r _. rewrite !mask_price_spec. lia.
Qed.

Lemma date_stage_wider a1 b1 dr2 (l : list Row) :
  (length dr2 ≠ 2%nat
   ∨ ∃ a2 b2, dr2 = [a2; b2] ∧ date_leb a2 a1 = true ∧ date_leb b1 b2 = true) →
  date_stage [a1; b1] l `sublist_of` date_stage dr2 l.
Proof.
  intros [Hlen|(a2 & b2 & -> & Ha & Hb)].
  - etrans; [apply date_stage_sublist|].
    unfold date_stage. by destruct dr2 as [|a [|b [|c dr]]].
  - unfold date_stage. apply filter_sublist_impl. intros r _.
    rewrite !mask_date_spec. intros (d & Hd & Hlo & Hhi). exists d.
    split_and!; [done|by eapply date_leb_trans..].
Qed.

Section Ranges.
Context `{Pandas}.

(** X5: when some loaded row has a date and the date picker is left
    alone, [date_range] is the earliest and the latest date of the loaded
    rows, every dated loaded row lies between them, and the picker is
    rendered with these two dates as value and bounds. *)
Theorem default_date_range_spans_dates db ui s o s' f :
  load_data db = inr f →
  body db ui s = (inr o, s') →
  ui_dates ui = None →
  (∃ r d, r ∈ f ∧ post_date_dt r = Some d) →
  ∃ min_date max_date,
    v_date_range o = [min_date; max_date]
    ∧ Some min_date ∈ post_date_dt <$> f
    ∧ Some max_date ∈ post_date_dt <$> f
    ∧ (∀ r d, r ∈ f → post_date_dt r = Some d →
              date_leb min_date d = true ∧ date_leb d max_date = true)
    ∧ EDateInput "📅 發文日期範圍" (min_date, max_date) min_date max_date ∈ out s'.
Proof.
  intros Hload Hrun Hpick (r0 & d0 & Hr0 & Hd0).
  destruct (body_success _ _ _ _ _ Hrun)
    as (f' & Hload' & _ & _ & Hdr & _ & _ & _ & _ & _ & _ & _ & _ & _ & _ & Hout).
  rewrite Hload in Hload'. injection Hload' as <-.
  assert (Hany : existsb notnull (post_date_dt <$> f) = true).
  { apply existsb_exists. exists (Some d0). split; [|done].
    apply list_elem_of_In. rewrite <- Hd0. by apply list_elem_of_fmap_2. }
  destruct (dates_min_max_Some _ Hany) as (a & b & Ha & Hb).
  exists a, b. split_and!.
  - rewrite Hdr. unfold choose_dates. rewrite Hany, Ha, Hb, Hpick.
    rewrite bool_decide_eq_false_2; [done|]. intros ->. by apply elem_of_nil in Hr0.
  - by apply dates_min_in.
  - by apply dates_max_in.
  - intros r d Hr Hd.
    assert (Some d ∈ post_date_dt <$> f).
    { rewrite <- Hd. by apply list_elem_of_fmap_2. }
    split; [by eapply dates_min_le|by eapply dates_max_ge].
  - rewrite Hout. unfold sidebar, date_widget. rewrite Ha, Hb.
    apply elem_of_app. right. apply elem_of_app. left.
    apply elem_of_app. right. apply elem_of_app. left. left.
Qed.

(** X6: when no loaded row has a date, no date picker is rendered and
    [date_range] is empty, so no date filter runs. *)
Theorem no_dates_no_date_filter db ui s o s' f :
  load_data db = inr f →
  body db ui s = (inr o, s') →
  (∀ r, r ∈ f → post_date_dt r = None) →
  v_date_range o = []
  ∧ ∃ es, out s' = out s ++ es ∧ Forall (λ x, is_date_input x = false) es.
Proof.
  intros Hload Hrun Hnone.
  destruct (body_success _ _ _ _ _ Hrun)
    as (f' & Hload' & _ & _ & Hdr & _ & _ & _ & _ & _ & _ & _ & _ & _ & _ & Hout).
  rewrite Hload in Hload'. injection Hload' as <-.
  assert (Hany : existsb notnull (post_date_dt <$> f) = false).
  { apply not_true_is_false. intros (x & Hx & Hnn)%existsb_exists.
    apply list_elem_of_In, list_elem_of_fmap in Hx as (r & -> & Hr).
    by rewrite (Hnone r Hr) in Hnn. }
  split.
  - rewrite Hdr. unfold choose_dates. by rewrite Hany, andb_false_r.
  - eexists. split; [exact Hout|].
    unfold sidebar, date_widget, slider_widget, main_column.
    rewrite (dates_min_None _ Hany). rewrite !Forall_app. split_and!.
    + by repeat constructor.
    + done.
    + destruct (slider_max f); by repeat constructor.
    + case_bool_decide; by repeat constructor.
Qed.

(** X7: a date range whose start is after its end selects nothing. *)
Theorem inverted_date_range_selects_nothing db ui s o s' start_date end_date :
  body db ui s = (inr o, s') →
  v_date_range o = [start_date; end_date] →
  date_leb start_date end_date = false →
  rows o = [] ∧ filtered_count o = 0.
Proof.
  intros Hrun Hdr Hinv.
  destruct (body_success _ _ _ _ _ Hrun)
    as (f & Hload & _ & _ & _ & _ & _ & _ & Hcnt & _).
  destruct (body_stages _ _ _ _ _ _ Hload Hrun) as (g1 & g2 & _ & _ & _ & Hrows).
  assert (rows o = []) as Hnil; [|by rewrite Hcnt, Hnil].
  rewrite Hrows, Hdr. apply sublist_nil_r.
  etrans; [apply price_stage_sublist|]. unfold date_stage.
  rewrite filter_none; [done|]. intros r _ (d & _ & Hlo & Hhi)%mask_date_spec.
  by rewrite (date_leb_trans _ _ _ Hlo Hhi) in Hinv.
Qed.

(** X8: a price range whose lower end is above its upper end selects
    nothing. *)
Theorem inverted_price_range_selects_nothing db ui s o s' :
  body db ui s = (inr o, s') →
  (v_price_range o).2 < (v_price_range o).1 →
  rows o = [] ∧ filtered_count o = 0.
Proof.
  intros Hrun Hinv.
  destruct (body_success _ _ _ _ _ Hrun)
    as (f & Hload & _ & _ & _ & _ & _ & _ & Hcnt & _).
  destruct (body_stages _ _ _ _ _ _ Hload Hrun) as (g1 & g2 & _ & _ & Hsub & Hrows).
  assert (rows o = []) as Hnil; [|by rewrite Hcnt, Hnil].
  apply elem_of_nil_inv. intros r Hr. rewrite Hrows in Hr.
  apply elem_of_price_stage in Hr as (_ & Hlo & Hhi);
    [lia|etrans; [apply date_stage_sublist|done]].
Qed.

(** X9: a date range of one day shows only rows dated that day. *)
Theorem single_day_range_selects_that_day db ui s o s' d :
  body db ui s = (inr o, s') →
  v_date_range o = [d; d] →
  ∀ r, r ∈ rows o → post_date_dt r = Some d.
Proof.
  intros Hrun Hdr r Hr.
  destruct (body_success _ _ _ _ _ Hrun) as (f & Hload & _).
  destruct (body_stages _ _ _ _ _ _ Hload Hrun) as (g1 & g2 & _ & _ & _ & Hrows).
  rewrite Hrows, Hdr in Hr.
  pose proof (elem_of_sublist _ _ _ Hr
    (price_stage_sublist f (v_price_range o) (date_stage [d; d] g2))) as Hr'.
  apply elem_of_date_stage in Hr' as (_ & d' & Hd' & Hlo & Hhi).
  by rewrite Hd', (date_leb_antisym _ _ Hlo Hhi).
Qed.

(** X10: widening the price range, all else equal, never removes a row:
    the rows shown for the narrower range are a subsequence of the rows
    shown for the wider one. *)
Theorem wider_price_range_keeps_rows db ui1 ui2 s1 s2 o1 o2 s1' s2' :
  body db ui1 s1 = (inr o1, s1') →
  body db ui2 s2 = (inr o2, s2') →
  ui_keyword ui1 = ui_keyword ui2 →
  ui_author ui1 = ui_author ui2 →
  ui_dates ui1 = ui_dates ui2 →
  (v_price_range o2).1 ≤ (v_price_range o1).1 →
  (v_price_range o1).2 ≤ (v_price_range o2).2 →
  rows o1 `sublist_of` rows o2.
Proof.
  intros Hrun1 Hrun2 Hkw Hau Hdates Hlo Hhi.
  destruct (body_success _ _ _ _ _ Hrun1) as (f & Hload & _ & _ & Hdr1 & _).
  destruct (body_success _ _ _ _ _ Hrun2) as (f' & Hload' & _ & _ & Hdr2 & _).
  rewrite Hload in Hload'. injection Hload' as <-.
  destruct (body_stages _ _ _ _ _ _ Hload Hrun1) as (g1 & g2 & H1 & H2 & _ & ->).
  destruct (body_stages _ _ _ _ _ _ Hload Hrun2) as (g1' & g2' & H1' & H2' & _ & ->).
  rewrite Hkw, H1' in H1. injection H1 as <-.
  rewrite Hau, H2' in H2. injection H2 as <-.
  rewrite Hdr1, Hdr2, Hdates. by apply price_stage_wider.
Qed.

(** X11: widening the date range, or leaving it incomplete, all else
    equal, never removes a row. *)
Theorem wider_date_range_keeps_rows db ui1 ui2 s1 s2 o1 o2 s1' s2' a1 b1 :
  body db ui1 s1 = (inr o1, s1') →
  body db ui2 s2 = (inr o2, s2') →
  ui_keyword ui1 = ui_keyword ui2 →
  ui_author ui1 = ui_author ui2 →
  ui_prices ui1 = ui_prices ui2 →
  v_date_range o1 = [a1; b1] →
  (length (v_date_range o2) ≠ 2%nat
   ∨ ∃ a2 b2, v_date_range o2 = [a2; b2]
              ∧ date_leb a2 a1 = true ∧ date_leb b1 b2 = true) →
  rows o1 `sublist_of` rows o2.
Proof.
  intros Hrun1 Hrun2 Hkw Hau Hprices Hdr1 Hdr2.
  destruct (body_success _ _ _ _ _ Hrun1) as (f & Hload & _ & _ & _ & Hpr1 & _).
  destruct (body_success _ _ _ _ _ Hrun2) as (f' & Hload' & _ & _ & _ & Hpr2 & _).
  rewrite Hload in Hload'. injection Hload' as <-.
  destruct (body_stages _ _ _ _ _ _ Hload Hrun1) as (g1 & g2 & H1 & H2 & _ & ->).
  destruct (body_stages _ _ _ _ _ _ Hload Hrun2) as (g1' & g2' & H1' & H2' & _ & ->).
  rewrite Hkw, H1' in H1. injection H1 as <-.
  rewrite Hau, H2' in H2. injection H2 as <-.
  rewrite Hpr1, Hpr2, Hprices, Hdr1.
  by apply price_stage_mono, date_stage_wider.
Qed.

(** X12: a keyword and a seller entry only narrow the result: the rows
    shown with them are a subsequence of the rows shown with both boxes
    empty and the same ranges. *)
Theorem text_criteria_only_narrow db ui1 ui2 s1 s2 o1 o2 s1' s2' :
  body db ui1 s1 = (inr o1, s1') →
  body db ui2 s2 = (inr o2, s2') →
  ui_keyword ui2 = "" →
  ui_author ui2 = "" →
  ui_dates ui1 = ui_dates ui2 →
  ui_prices ui1 = ui_prices ui2 →
  rows o1 `sublist_of` rows o2.
Proof.
  intros Hrun1 Hrun2 Hkw Hau Hdates Hprices.
  destruct (body_success _ _ _ _ _ Hrun1)
    as (f & Hload & _ & _ & Hdr1 & Hpr1 & _).
  destruct (body_success _ _ _ _ _ Hrun2)
    as (f' & Hload' & _ & _ & Hdr2 & Hpr2 & _).
  rewrite Hload in Hload'. injection Hload' as <-.
  destruct (body_stages _ _ _ _ _ _ Hload Hrun1) as (g1 & g2 & _ & _ & Hsub & ->).
  destruct (body_stages _ _ _ _ _ _ Hload Hrun2) as (g1' & g2' & H1' & H2' & _ & ->).
  rewrite Hkw in H1'. injection H1' as <-.
  rewrite Hau in H2'. injection H2' as <-.
  rewrite Hdr1, Hdr2, Hpr1, Hpr2, Hdates, Hprices.
  by apply price_stage_mono, date_stage_mono.
Qed.
End Ranges.

(** ** The average *)

Lemma prices_sum_bounds (g : list Row) (a b : Z) :
  (∀ r, r ∈ g → a ≤ price r ∧ price r ≤ b) →
  len g * a ≤ prices_sum (price <$> g) ∧ prices_sum (price <$> g) ≤ len g * b.
Proof.
  induction g as [|r g IH]; intros Hall; [done|].
  destruct (Hall r) as [Hlo Hhi]; [left|].
  destruct IH as [IHlo IHhi]; [intros; apply Hall; by right|].
  change (prices_sum (price <$> r :: g)) with (price r + prices_sum (price <$> g)).
  unfold len in *. simpl length. lia.
Qed.

Lemma quot_between (n sum a b : Z) :
  0 < n → n * a ≤ sum → sum ≤ n * b → a ≤ sum ÷ n ∧ sum ÷ n ≤ b.
Proof.
  intros Hn Hlo Hhi.
  pose proof (Z.quot_rem' sum n) as Hqr.
  destruct (Z.le_gt_cases 0 sum) as [Hpos|Hneg].
  - pose proof (Z.rem_bound_pos sum n Hpos Hn). nia.
  - pose proof (Z.rem_nonpos sum n) as Hr. pose proof (Z.rem_bound_abs sum n) as Hb.
    assert (sum `rem` n ≤ 0) by (apply Hr; lia).
    assert (- n < sum `rem` n) by lia. nia.
Qed.

Section Average.
Context `{Pandas}.

(** X13: the average shown lies between any two bounds of the prices of
    the rows shown, in particular between their smallest and their
    largest price. *)
Theorem average_price_within_prices db ui s o s' a b :
  body db ui s = (inr o, s') →
  rows o ≠ [] →
  (∀ r, r ∈ rows o → a ≤ price r ∧ price r ≤ b) →
  a ≤ average_price o ∧ average_price o ≤ b.
Proof.
  intros Hrun Hne Hall.
  destruct (body_success _ _ _ _ _ Hrun)
    as (f & _ & _ & _ & _ & _ & _ & _ & _ & Havg & _).
  rewrite Havg, average_quot by done.
  destruct (prices_sum_bounds _ _ _ Hall) as [Hlo Hhi].
  apply quot_between; [|done|done].
  unfold len. destruct (rows o); [done|]. simpl. lia.
Qed.
End Average.

(** ** The loaded order *)

Lemma same_key_same_row {A B} (h : A → B) (l : list A) (x y : A) :
  NoDup (h <$> l) → x ∈ l → y ∈ l → h x = h y → x = y.
Proof.
  induction l as [|z l IH]; intros Hnd Hx Hy Hxy.
  { by apply elem_of_nil in Hx. }
  rewrite fmap_cons in Hnd. apply NoDup_cons in Hnd as [Hz Hnd].
  apply elem_of_cons in Hx as [->|Hx]; apply elem_of_cons in Hy as [->|Hy].
  - done.
  - destruct Hz. rewrite Hxy. by apply list_elem_of_fmap_2.
  - destruct Hz. rewrite <- Hxy. by apply list_elem_of_fmap_2.
  - by apply IH.
Qed.

Section Order.
Context `{Pandas}.

(** X14: the rows shown are listings of the table, most recent first:
    they are the image of a subsequence of the sorted table, by descending
    [id]. *)
Theorem shown_rows_newest_first t ui s o s' :
  body (Table t) ui s = (inr o, s') →
  ∃ q,
    rows o = select_row <$> q
    ∧ q `sublist_of` order_by_id_desc t
    ∧ StronglySorted (λ a b, id b ≤ id a) q
    ∧ ∀ r, r ∈ q → r ∈ t.
Proof.
  intros Hrun.
  destruct (body_success _ _ _ _ _ Hrun)
    as (f & Hload & _ & _ & _ & _ & Hpass & _).
  apply load_data_table in Hload as [_ ->].
  apply filter_pass_sublist, sublist_fmap_inv in Hpass as (q & Hq & Hrows).
  exists q. split_and!; [done|done|..].
  - eapply StronglySorted_sublist; [done|].
    apply (StronglySorted_merge_sort newer_first).
  - intros r Hr. apply (elem_of_sublist _ _ _ Hr) in Hq.
    unfold order_by_id_desc in Hq. by rewrite merge_sort_Permutation in Hq.
Qed.

(** X15: with distinct primary keys, the loaded frame does not depend on
    the order in which the table stores its rows. *)
Theorem load_ignores_storage_order t t' :
  t ≡ₚ t' →
  NoDup (id <$> t) →
  load_data (Table t) = load_data (Table t').
Proof.
  intros Hperm Hnd.
  assert (Hsame : order_by_id_desc t = order_by_id_desc t');
    [|simpl; by rewrite Hsame].
  unfold order_by_id_desc.
  apply (StronglySorted_unique_strong newer_first).
  - intros x y Hx Hy Hxy Hyx. rewrite merge_sort_Permutation in Hx, Hy.
    rewrite <- Hperm in Hy.
    apply (same_key_same_row id t); [done..|]. unfold newer_first in *. lia.
  - apply (StronglySorted_merge_sort newer_first).
  - apply (StronglySorted_merge_sort newer_first).
  - by rewrite !merge_sort_Permutation.
Qed.
End Order.

(** ** Dates read from text *)

Lemma digit_of_range c d : digit_of c = Some d → 0 ≤ d ∧ d ≤ 9.
Proof.
  unfold digit_of. destruct (_ && _) eqn:Hc; [|done]. intros [= <-].
  apply andb_true_iff in Hc as [?%Z.leb_le ?%Z.leb_le]. lia.
Qed.

Lemma number_from_range l : ∀ acc n,
  number_from acc l = Some n → 0 ≤ acc →
  acc * 10 ^ Z.of_nat (length l) ≤ n ∧ n < (acc + 1) * 10 ^ Z.of_nat (length l).
Proof.
  induction l as [|c l IH]; intros acc n Hn Hacc; simpl in Hn.
  - injection Hn as <-. simpl. lia.
  - destruct (digit_of c) as [d|] eqn:Hd; [|done].
    apply digit_of_range in Hd. apply IH in Hn; [|lia].
    simpl length. rewrite Nat2Z.inj_succ, Z.pow_succ_r by lia.
    assert (0 < 10 ^ Z.of_nat (length l)) by (apply Z.pow_pos_nonneg; lia).
    nia.
Qed.

(** X16: a normalized date is a calendar date: a year from 1 to 9999, a
    month from 1 to 12 and a day that exists in that month. *)
Theorem to_date_gives_calendar_dates s d :
  to_date s = Some d → valid_date d.
Proof.
  unfold to_date, valid_date.
  destruct (split_on "/" (list_ascii_of_string s)) as [|fy [|fm [|fd [|]]]];
    try done.
  destruct (parse_year fy) as [y|] eqn:Hy; [|done]. simpl.
  destruct (parse_month fm) as [m|] eqn:Hm; [|done]. simpl.
  destruct (parse_day fd) as [dd|] eqn:Hd; [|done]. simpl.
  destruct (_ && _) eqn:Hok; [|done]. intros [= <-]. simpl.
  apply andb_true_iff in Hok as [?%Z.leb_le ?%Z.leb_le].
  assert (y ≤ 9999).
  { unfold parse_year in Hy. destruct fy as [|a [|b [|c [|e [|]]]]]; try done.
    apply number_from_range in Hy; [|done]. simpl in Hy. lia. }
  assert (1 ≤ m ∧ m ≤ 12) as [??].
  { unfold parse_month in Hm.
    destruct fm as [|a [|b [|]]]; try done;
      (destruct (number_from 0 _) as [m'|]; [simpl in Hm|done];
       destruct (_ && _) eqn:Hr; [|done]; injection Hm as <-;
       apply andb_true_iff in Hr as [?%Z.leb_le ?%Z.leb_le]; lia). }
  assert (1 ≤ dd).
  { unfold parse_day in Hd.
    destruct fd as [|a [|b [|]]]; try done;
      (destruct (number_from 0 _) as [d'|]; [simpl in Hd|done];
       destruct (_ && _) eqn:Hr; [|done]; injection Hd as <-;
       apply andb_true_iff in Hr as [?%Z.leb_le ?%Z.leb_le]; lia). }
  lia.
Qed.

Lemma digit_cases k : 0 ≤ k → k ≤ 9 →
  k = 0 ∨ k = 1 ∨ k = 2 ∨ k = 3 ∨ k = 4 ∨ k = 5 ∨ k = 6 ∨ k = 7 ∨ k = 8 ∨ k = 9.
Proof. lia. Qed.

Lemma digit_of_digit_char k : 0 ≤ k → k ≤ 9 → digit_of (digit_char k) = Some k.
Proof.
  intros Hlo Hhi.
  destruct (digit_cases k Hlo Hhi) as [->|[->|[->|[->|[->|[->|[->|[->|[->| ->]]]]]]]]];
    reflexivity.
Qed.

Lemma digit_char_not_slash k : 0 ≤ k → k ≤ 9 → Ascii.eqb (digit_char k) "/" = false.
Proof.
  intros Hlo Hhi.
  destruct (digit_cases k Hlo Hhi) as [->|[->|[->|[->|[->|[->|[->|[->|[->| ->]]]]]]]]];
    reflexivity.
Qed.

Lemma parse_year_four_digits y :
  1 ≤ y → y ≤ 9999 → parse_year (four_digits y) = Some y.
Proof.
  intros Hlo Hhi. unfold parse_year, four_digits. simpl.
  rewrite !digit_of_digit_char by (Z.div_mod_to_equations; lia).
  f_equal. Z.div_mod_to_equations. lia.
Qed.

Lemma parse_month_two_digits m :
  1 ≤ m → m ≤ 12 → parse_month (two_digits m) = Some m.
Proof.
  intros Hlo Hhi.
  assert (m = 1 ∨ m = 2 ∨ m = 3 ∨ m = 4 ∨ m = 5 ∨ m = 6 ∨ m = 7 ∨ m = 8
          ∨ m = 9 ∨ m = 10 ∨ m = 11 ∨ m = 12) as Hm by lia.
  repeat (destruct Hm as [->|Hm]; [reflexivity|]). by subst.
Qed.

Lemma parse_day_two_digits d :
  1 ≤ d → d ≤ 31 → parse_day (two_digits d) = Some d.
Proof.
  intros Hlo Hhi.
  assert (Hd : ∃ n : nat, d = Z.of_nat n ∧ (1 ≤ n ≤ 31)%nat).
  { exists (Z.to_nat d). lia. }
  destruct Hd as (n & -> & Hn).
  do 32 (destruct n as [|n]; [first [reflexivity | lia]|]). lia.
Qed.

Lemma days_in_month_le_31 y m : days_in_month y m ≤ 31.
Proof.
  unfold days_in_month.
  destruct (m =? 2); [destruct (is_leap y); lia|]. destruct (_ || _); lia.
Qed.

Lemma split_on_field (sep : ascii) (f rest : list ascii) :
  Forall (λ c, Ascii.eqb c sep = false) f →
  split_on sep (f ++ sep :: rest) = f :: split_on sep rest.
Proof.
  induction 1 as [|c f Hc Hf IH]; simpl.
  - by rewrite Ascii.eqb_refl.
  - by rewrite Hc, IH.
Qed.

Lemma split_on_last (sep : ascii) (f : list ascii) :
  Forall (λ c, Ascii.eqb c sep = false) f → split_on sep f = [f].
Proof.
  induction 1 as [|c f Hc Hf IH]; simpl; [done|]. by rewrite Hc, IH.
Qed.

(** The format directives read back what they would write. *)
Lemma date_text_round_trip d :
  valid_date d → to_date (date_text d) = Some d.
Proof.
  destruct d as [y m dd]. unfold valid_date. simpl.
  intros (Hy1 & Hy2 & Hm1 & Hm2 & Hd1 & Hd2).
  pose proof (days_in_month_le_31 y m).
  unfold date_text, to_date. cbn [year month day].
  rewrite list_ascii_of_string_of_list_ascii.
  rewrite split_on_field, split_on_field, split_on_last.
  - rewrite parse_year_four_digits, parse_month_two_digits,
      parse_day_two_digits by lia. simpl.
    rewrite (proj2 (Z.leb_le 1 y)), (proj2 (Z.leb_le dd _)) by done. done.
  - repeat constructor; apply digit_char_not_slash; Z.div_mod_to_equations; lia.
  - repeat constructor; apply digit_char_not_slash; Z.div_mod_to_equations; lia.
  - repeat constructor; apply digit_char_not_slash; Z.div_mod_to_equations; lia.
Qed.

(** X17: every calendar date from 1677-09-22 to 2262-04-11, the dates
    that pandas keeps in every version, written as four digits, a slash,
    two digits, a slash and two digits, is read back as that date. *)
Theorem to_date_reads_written_dates d :
  valid_date d →
  not_after (Date 1677 9 22) d →
  not_after d (Date 2262 4 11) →
  to_date (date_text d) = Some d.
Proof. intros Hvalid _ _. by apply date_text_round_trip. Qed.

(** ** The main column *)

Section Column.
Context `{Pandas}.

(** X18: a normal run shows the three metrics with [total_count],
    [filtered_count] and [average_price], and then either the table, with
    exactly the filtered rows, when there are some, or the warning, when
    there are none: never an empty table, never both. *)
Theorem table_or_warning db ui s o s' :
  body db ui s = (inr o, s') →
  ∃ es,
    out s' = out s ++ es
    ∧ EMetric "📦 資料庫總筆數" (total_count o) ∈ es
    ∧ EMetric "🔍 搜尋結果" (filtered_count o) ∈ es
    ∧ EMetric "💰 平均行情" (average_price o) ∈ es
    ∧ (∀ g, EDataframe g ∈ es → g = rows o ∧ rows o ≠ [])
    ∧ (rows o ≠ [] →
       EDataframe (rows o) ∈ es ∧ Forall (λ x, is_warning x = false) es)
    ∧ (rows o = [] →
       (∃ w, EWarning w ∈ es) ∧ Forall (λ x, is_dataframe x = false) es).
Proof.
  intros Hrun.
  destruct (body_success _ _ _ _ _ Hrun)
    as (f & _ & _ & _ & _ & _ & _ & Htot & Hcnt & Havg & _ & _ & _ & _ & _ & Hout).
  assert (Hside : Forall (λ x, is_warning x = false ∧ is_dataframe x = false)
                    (sidebar f)).
  { unfold sidebar, date_widget, slider_widget. rewrite !Forall_app. split_and!.
    - by repeat constructor.
    - destruct (dates_min (post_date_dt <$> f)), (dates_max (post_date_dt <$> f));
        by repeat constructor.
    - destruct (slider_max f); by repeat constructor. }
  eexists. split; [exact Hout|]. rewrite Htot, Hcnt, Havg.
  unfold main_column. split_and!.
  - apply elem_of_app. right. do 1 right. left.
  - apply elem_of_app. right. do 2 right. left.
  - apply elem_of_app. right. do 3 right. left.
  - intros g [Hg|Hg]%elem_of_app.
    + rewrite Forall_forall in Hside. by destruct (Hside _ Hg) as [_ ?].
    + repeat (apply elem_of_cons in Hg as [Hg|Hg]; [try done|]).
      * case_bool_decide; [done|]. by injection Hg as ->.
      * by apply elem_of_nil in Hg.
  - intros Hne. rewrite bool_decide_eq_false_2 by done. split.
    + apply elem_of_app. right. do 5 right. left.
    + apply Forall_app. split; [|by repeat constructor].
      eapply Forall_impl; [exact Hside|]. by intros ? [? _].
  - intros Hnil. rewrite bool_decide_eq_true_2 by done. split.
    + eexists. apply elem_of_app. right. do 5 right. left.
    + apply Forall_app. split; [|by repeat constructor].
      eapply Forall_impl; [exact Hside|]. by intros ? [_ ?].
Qed.
End Column.

(** ** Letter case *)

Lemma search_same_letters (p1 p2 s : list ascii) :
  PyRe.lower <$> p1 = PyRe.lower <$> p2 →
  PyRe.search (PyRe.Lit <$> p1) s = PyRe.search (PyRe.Lit <$> p2) s.
Proof.
  intros Heq. apply eq_true_iff_eq. by rewrite !search_literal, Heq.
Qed.

Lemma str_contains_same_letters rest kw1 kw2 :
  literal kw1 = true → literal kw2 = true →
  PyRe.lower <$> list_ascii_of_string kw1 = PyRe.lower <$> list_ascii_of_string kw2 →
  ∃ c1 c2,
    @str_contains (PyRe.engine rest) kw1 = inr c1
    ∧ @str_contains (PyRe.engine rest) kw2 = inr c2
    ∧ ∀ s, c1 s = c2 s.
Proof.
  intros H1 H2 Heq. unfold str_contains. rewrite !compile_literal by done.
  eexists _, _. split_and!; [done|done|]. intros s. simpl.
  by apply search_same_letters.
Qed.

Lemma same_letters_empty kw1 kw2 :
  PyRe.lower <$> list_ascii_of_string kw1 = PyRe.lower <$> list_ascii_of_string kw2 →
  kw1 = "" ↔ kw2 = "".
Proof.
  intros Heq. destruct kw1, kw2; simpl in Heq; split; try done.
Qed.

(** X19: in the model of [re] on its fragment, the case of the letters A
    to Z in the entries does not matter: two runs whose keywords, and
    whose seller entries, are made of 7-bit characters none of which is a
    special character of the pattern syntax, and are equal up to the case
    of these letters, with the same ranges, show the same rows. *)
Theorem letter_case_is_ignored rest db ui1 ui2 s1 s2 o1 o2 s1' s2' :
  @body (PyRe.engine rest) db ui1 s1 = (inr o1, s1') →
  @body (PyRe.engine rest) db ui2 s2 = (inr o2, s2') →
  literal (ui_keyword ui1) = true → literal (ui_keyword ui2) = true →
  literal (ui_author ui1) = true → literal (ui_author ui2) = true →
  PyRe.lower <$> list_ascii_of_string (ui_keyword ui1)
  = PyRe.lower <$> list_ascii_of_string (ui_keyword ui2) →
  PyRe.lower <$> list_ascii_of_string (ui_author ui1)
  = PyRe.lower <$> list_ascii_of_string (ui_author ui2) →
  ui_dates ui1 = ui_dates ui2 →
  ui_prices ui1 = ui_prices ui2 →
  rows o1 = rows o2.
Proof.
  intros Hrun1 Hrun2 Hk1 Hk2 Ha1 Ha2 Hkw Hau Hdates Hprices.
  destruct (body_success _ _ _ _ _ Hrun1)
    as (f & Hload & _ & _ & Hdr1 & Hpr1 & _).
  destruct (body_success _ _ _ _ _ Hrun2)
    as (f' & Hload' & _ & _ & Hdr2 & Hpr2 & _).
  rewrite Hload in Hload'. injection Hload' as <-.
  destruct (body_stages _ _ _ _ _ _ Hload Hrun1) as (g1 & g2 & H1 & H2 & _ & ->).
  destruct (body_stages _ _ _ _ _ _ Hload Hrun2) as (g1' & g2' & H1' & H2' & _ & ->).
  rewrite Hdr1, Hdr2, Hpr1, Hpr2, Hdates, Hprices.
  destruct (str_contains_same_letters rest _ _ Hk1 Hk2 Hkw)
    as (ck1 & ck2 & Hck1 & Hck2 & Hck).
  destruct (str_contains_same_letters rest _ _ Ha1 Ha2 Hau)
    as (ca1 & ca2 & Hca1 & Hca2 & Hca).
  assert (g1 = g1') as <-.
  { unfold keyword_stage in H1, H1'. rewrite Hck1 in H1. rewrite Hck2 in H1'.
    destruct (decide (ui_keyword ui1 = "")) as [He|He].
    - pose proof (proj1 (same_letters_empty _ _ Hkw) He) as He'.
      rewrite bool_decide_eq_false_2 in H1 by (by intros ?).
      rewrite bool_decide_eq_false_2 in H1' by (by intros ?). congruence.
    - assert (ui_keyword ui2 ≠ "") as He'.
      { intros He'. by apply He, (same_letters_empty _ _ Hkw). }
      rewrite bool_decide_eq_true_2 in H1 by done.
      rewrite bool_decide_eq_true_2 in H1' by done.
      injection H1 as <-. injection H1' as <-.
      apply list_filter_iff. intros r. by rewrite !Hck. }
  assert (g2 = g2') as <-; [|done].
  unfold author_stage in H2, H2'. rewrite Hca1 in H2. rewrite Hca2 in H2'.
  destruct (decide (ui_author ui1 = "")) as [He|He].
  - pose proof (proj1 (same_letters_empty _ _ Hau) He) as He'.
    rewrite bool_decide_eq_false_2 in H2 by (by intros ?).
    rewrite bool_decide_eq_false_2 in H2' by (by intros ?). congruence.
  - assert (ui_author ui2 ≠ "") as He'.
    { intros He'. by apply He, (same_letters_empty _ _ Hau). }
    rewrite bool_decide_eq_true_2 in H2 by done.
    rewrite bool_decide_eq_true_2 in H2' by done.
    injection H2 as <-. injection H2' as <-.
    apply list_filter_iff. intros r. by rewrite !Hca.
Qed.

(** ** The default view *)

Section Default.
Context `{Pandas}.

(** X20: with no constraints a loaded row is shown exactly when its price
    lies in [0, 100000] and, if some loaded row has a date, it has one
    too. *)
Theorem default_view_hides_outliers_and_undated db s o s' f :
  load_data db = inr f →
  body db no_constraints s = (inr o, s') →
  ∀ r, r ∈ rows o ↔
       r ∈ f
       ∧ 0 ≤ price r ∧ price r ≤ 100000
       ∧ ((∃ r', r' ∈ f ∧ is_Some (post_date_dt r')) → is_Some (post_date_dt r)).
Proof.
  intros Hload Hrun r.
  destruct (body_success _ _ _ _ _ Hrun)
    as (f' & Hload' & _ & _ & Hdr & Hpr & _).
  rewrite Hload in Hload'. injection Hload' as <-.
  destruct (body_stages _ _ _ _ _ _ Hload Hrun) as (g1 & g2 & H1 & H2 & _ & ->).
  injection H1 as <-. injection H2 as <-.
  rewrite elem_of_price_stage by apply date_stage_sublist.
  rewrite elem_of_date_stage, Hdr, Hpr. simpl.
  split.
  - intros ((Hr & Hd) & Hlo & Hhi). split; [done|].
    unfold choose_prices, slider_max in Hlo, Hhi.
    destruct (prices_max (price <$> f)) as [m|] eqn:Hmax;
      [|destruct f; [by apply elem_of_nil in Hr|done]].
    simpl in Hlo, Hhi. unfold price_cap in Hhi. split_and!; [lia|lia|].
    intros (r' & Hr' & d' & Hd').
    assert (Hany : existsb notnull (post_date_dt <$> f) = true).
    { apply existsb_exists. exists (Some d'). split; [|done].
      apply list_elem_of_In. rewrite <- Hd'. by apply list_elem_of_fmap_2. }
    unfold choose_dates in Hd. rewrite Hany in Hd.
    rewrite bool_decide_eq_false_2 in Hd
      by (intros ->; by apply elem_of_nil in Hr).
    destruct (dates_min_max_Some _ Hany) as (a & b & Ha & Hb).
    rewrite Ha, Hb in Hd. simpl in Hd. destruct Hd as (d & -> & _). by eexists.
  - intros (Hr & Hlo & Hhi & Hdated). split_and!; [done|..].
    + unfold choose_dates.
      destruct (negb (bool_decide (f = [])) && existsb notnull (post_date_dt <$> f))
        eqn:Hshown; [|done].
      apply andb_true_iff in Hshown as [_ Hany].
      destruct (dates_min_max_Some _ Hany) as (a & b & Ha & Hb).
      rewrite Ha, Hb. simpl.
      destruct Hdated as [d Hd].
      { apply existsb_exists in Hany as (x & Hx & Hnn).
        apply list_elem_of_In, list_elem_of_fmap in Hx as (r' & -> & Hr').
        exists r'. split; [done|]. by destruct (post_date_dt r'). }
      exists d. assert (Some d ∈ post_date_dt <$> f).
      { rewrite <- Hd. by apply list_elem_of_fmap_2. }
      split_and!; [done|by eapply dates_min_le|by eapply dates_max_ge].
    + unfold choose_prices, slider_max.
      destruct (prices_max (price <$> f)) as [m|]; simpl; lia.
    + unfold choose_prices, slider_max.
      destruct (prices_max (price <$> f)) as [m|] eqn:Hmax; simpl.
      * destruct (prices_max_spec _ _ Hmax) as [_ Hub].
        specialize (Hub (price r) (list_elem_of_fmap_2 _ _ _ Hr)).
        unfold price_cap. lia.
      * destruct f; [by apply elem_of_nil in Hr|done].
Qed.
End Default.

(** ** The further properties on concrete runs *)

Ltac run_computes := vm_compute; reflexivity.

Lemma filters_compose_conjunctively_witness :
  load_data two_listings = inr [hibiki; macallan]
  ∧ run_of two_listings (typed "macallan") = (inr keyword_outcome, keyword_state)
  ∧ ∀ r, r ∈ rows keyword_outcome → r ∈ [hibiki; macallan].
Proof.
  split_and!; [reflexivity|run_computes|].
  destruct (@filters_compose_conjunctively py_engine two_listings
              (typed "macallan") start keyword_outcome keyword_state
              [hibiki; macallan])
    as (ck & ca & _ & _ & Hmem); [reflexivity|run_computes|].
  intros r Hr. by apply Hmem in Hr as [? _].
Defined.

Lemma literal_criteria_are_substring_tests_witness :
  load_data two_listings = inr [hibiki; macallan]
  ∧ run_of two_listings (typed "macallan") = (inr keyword_outcome, keyword_state)
  ∧ literal "macallan" = true ∧ literal "" = true
  ∧ ∀ r, r ∈ rows keyword_outcome →
      substring_ci "macallan" (product_name r)
      ∨ substring_ci "macallan" (title r).
Proof.
  split_and!; [reflexivity|run_computes|reflexivity..|].
  intros r Hr.
  apply (literal_criteria_are_substring_tests PyRe.nothing two_listings
           (typed "macallan") start keyword_outcome keyword_state
           [hibiki; macallan]) in Hr as (_ & Hkw & _);
    [exact Hkw|reflexivity|run_computes|reflexivity..].
Defined.

Lemma empty_table_run_witness :
  load_data (Table []) = inr []
  ∧ run_of (Table []) (typed "macallan") = (inr empty_outcome, empty_state)
  ∧ rows empty_outcome = []
  ∧ v_price_range empty_outcome = (0, 0).
Proof.
  destruct (@empty_table_run py_engine (Table []) (typed "macallan") start
              empty_outcome empty_state)
    as (Hrows & _ & _ & _ & _ & Hpr & _); [reflexivity|run_computes|].
  split_and!; [reflexivity|run_computes|exact Hrows|exact Hpr].
Defined.

Lemma default_date_range_spans_dates_witness :
  load_data two_listings = inr [hibiki; macallan]
  ∧ run_of two_listings (typed "macallan") = (inr keyword_outcome, keyword_state)
  ∧ ∃ min_date max_date,
      v_date_range keyword_outcome = [min_date; max_date]
      ∧ Some min_date ∈ post_date_dt <$> [hibiki; macallan].
Proof.
  split_and!; [reflexivity|run_computes|].
  destruct (@default_date_range_spans_dates py_engine two_listings
              (typed "macallan") start keyword_outcome keyword_state
              [hibiki; macallan])
    as (a & b & Hdr & Ha & _); [reflexivity|run_computes|reflexivity|..].
  - exists hibiki, (Date 2024 6 1). split; [left|reflexivity].
  - by exists a, b.
Defined.

Lemma no_dates_no_date_filter_witness :
  load_data all_undated
  = inr [shown "yesterday" "Hibiki 17" "bob" "Hibiki" 12000 None;
         shown "last week" "Macallan 12" "alice" "Macallan" 3000 None]
  ∧ run_of all_undated all_undated_ui = (inr all_undated_outcome, all_undated_state)
  ∧ v_date_range all_undated_outcome = [].
Proof.
  split_and!; [reflexivity|run_computes|].
  eapply (@no_dates_no_date_filter py_engine all_undated all_undated_ui start
            all_undated_outcome all_undated_state); [reflexivity|run_computes|].
  intros r Hr. repeat (apply elem_of_cons in Hr as [->|Hr]; [reflexivity|]).
  by apply elem_of_nil in Hr.
Defined.

Lemma inverted_date_range_selects_nothing_witness :
  run_of two_listings inverted_dates_ui
  = (inr inverted_dates_outcome, inverted_dates_state)
  ∧ rows inverted_dates_outcome = [].
Proof.
  split; [run_computes|].
  eapply (@inverted_date_range_selects_nothing py_engine two_listings
            inverted_dates_ui start inverted_dates_outcome inverted_dates_state
            (Date 2024 12 31) (Date 2024 3 1));
    [run_computes|reflexivity|reflexivity].
Defined.

Lemma inverted_price_range_selects_nothing_witness :
  run_of two_listings inverted_prices_ui
  = (inr inverted_prices_outcome, inverted_prices_state)
  ∧ rows inverted_prices_outcome = [].
Proof.
  split; [run_computes|].
  eapply (@inverted_price_range_selects_nothing py_engine two_listings
            inverted_prices_ui start inverted_prices_outcome
            inverted_prices_state);
    [run_computes|vm_compute; reflexivity].
Defined.

Lemma single_day_range_selects_that_day_witness :
  run_of two_listings single_day_ui = (inr single_day_outcome, single_day_state)
  ∧ ∀ r, r ∈ rows single_day_outcome → post_date_dt r = Some (Date 2024 6 1).
Proof.
  split; [run_computes|].
  apply (@single_day_range_selects_that_day py_engine two_listings
           single_day_ui start single_day_outcome single_day_state);
    [run_computes|reflexivity].
Defined.

Lemma wider_price_range_keeps_rows_witness :
  run_of two_listings narrow_prices_ui
  = (inr narrow_prices_outcome, narrow_prices_state)
  ∧ run_of two_listings no_constraints = (inr defaults_outcome, defaults_state)
  ∧ rows narrow_prices_outcome `sublist_of` rows defaults_outcome.
Proof.
  split_and!; [run_computes..|].
  apply (@wider_price_range_keeps_rows py_engine two_listings narrow_prices_ui
           no_constraints start start narrow_prices_outcome defaults_outcome
           narrow_prices_state defaults_state);
    first [run_computes | reflexivity | by vm_compute].
Defined.

Lemma wider_date_range_keeps_rows_witness :
  run_of two_listings narrow_dates_ui
  = (inr narrow_dates_outcome, narrow_dates_state)
  ∧ run_of two_listings no_constraints = (inr defaults_outcome, defaults_state)
  ∧ rows narrow_dates_outcome `sublist_of` rows defaults_outcome.
Proof.
  split_and!; [run_computes..|].
  apply (@wider_date_range_keeps_rows py_engine two_listings narrow_dates_ui
           no_constraints start start narrow_dates_outcome defaults_outcome
           narrow_dates_state defaults_state (Date 2024 2 1) (Date 2024 5 1));
    [run_computes|run_computes|reflexivity..|].
  right. exists (Date 2024 1 1), (Date 2024 6 1). by split_and!.
Defined.

Lemma text_criteria_only_narrow_witness :
  run_of two_listings (typed "macallan") = (inr keyword_outcome, keyword_state)
  ∧ run_of two_listings no_constraints = (inr defaults_outcome, defaults_state)
  ∧ rows keyword_outcome `sublist_of` rows defaults_outcome.
Proof.
  split_and!; [run_computes..|].
  apply (@text_criteria_only_narrow py_engine two_listings (typed "macallan")
           no_constraints start start keyword_outcome defaults_outcome
           keyword_state defaults_state);
    first [run_computes | reflexivity].
Defined.

Lemma average_price_within_prices_witness :
  run_of two_listings no_constraints = (inr defaults_outcome, defaults_state)
  ∧ 3000 ≤ average_price defaults_outcome
  ∧ average_price defaults_outcome ≤ 12000.
Proof.
  split; [run_computes|].
  apply (@average_price_within_prices py_engine two_listings no_constraints
           start defaults_outcome defaults_state 3000 12000);
    [run_computes|by vm_compute|].
  intros r Hr. vm_compute in Hr.
  repeat (apply elem_of_cons in Hr as [->|Hr]; [by vm_compute|]).
  by apply elem_of_nil in Hr.
Defined.

Lemma shown_rows_newest_first_witness :
  run_of two_listings no_constraints = (inr defaults_outcome, defaults_state)
  ∧ ∃ q, rows defaults_outcome = select_row <$> q
         ∧ StronglySorted (λ a b, id b ≤ id a) q.
Proof.
  split; [run_computes|].
  destruct (@shown_rows_newest_first py_engine
              [ listing 1 "2024/01/01" "Macallan 12" "alice" "Macallan" 3000;
                listing 2 "2024/06/01" "Hibiki 17" "bob" "Hibiki" 12000 ]
              no_constraints start defaults_outcome defaults_state)
    as (q & Hrows & _ & Hsorted & _); [run_computes|].
  by exists q.
Defined.

Lemma load_ignores_storage_order_witness :
  [ listing 1 "2024/01/01" "Macallan 12" "alice" "Macallan" 3000;
    listing 2 "2024/06/01" "Hibiki 17" "bob" "Hibiki" 12000 ]
  ≡ₚ [ listing 2 "2024/06/01" "Hibiki 17" "bob" "Hibiki" 12000;
       listing 1 "2024/01/01" "Macallan 12" "alice" "Macallan" 3000 ]
  ∧ load_data two_listings
    = load_data
        (Table [ listing 2 "2024/06/01" "Hibiki 17" "bob" "Hibiki" 12000;
                 listing 1 "2024/01/01" "Macallan 12" "alice" "Macallan" 3000 ]).
Proof.
  assert (Hperm :
    [ listing 1 "2024/01/01" "Macallan 12" "alice" "Macallan" 3000;
      listing 2 "2024/06/01" "Hibiki 17" "bob" "Hibiki" 12000 ]
    ≡ₚ [ listing 2 "2024/06/01" "Hibiki 17" "bob" "Hibiki" 12000;
         listing 1 "2024/01/01" "Macallan 12" "alice" "Macallan" 3000 ])
    by apply Permutation_swap.
  split; [exact Hperm|].
  apply (load_ignores_storage_order _ _ Hperm).
  simpl. apply NoDup_cons. split; [|apply NoDup_singleton].
  intros Hin. apply list_elem_of_singleton in Hin. discriminate Hin.
Defined.

Lemma to_date_gives_calendar_dates_witness :
  to_date "2024/02/29" = Some (Date 2024 2 29)
  ∧ valid_date (Date 2024 2 29).
Proof.
  split; [reflexivity|].
  apply (to_date_gives_calendar_dates "2024/02/29"). reflexivity.
Defined.

Lemma to_date_reads_written_dates_witness :
  valid_date (Date 2024 3 1)
  ∧ date_text (Date 2024 3 1) = "2024/03/01"
  ∧ to_date (date_text (Date 2024 3 1)) = Some (Date 2024 3 1).
Proof.
  assert (Hvalid : valid_date (Date 2024 3 1)) by (vm_compute; intuition discriminate).
  split_and!; [exact Hvalid|reflexivity|].
  apply to_date_reads_written_dates;
    [exact Hvalid|left; simpl; lia|left; simpl; lia].
Defined.

Lemma table_or_warning_witness :
  run_of two_listings (typed "macallan") = (inr keyword_outcome, keyword_state)
  ∧ ∃ es, out keyword_state = out start ++ es
          ∧ EDataframe (rows keyword_outcome) ∈ es.
Proof.
  split; [run_computes|].
  destruct (@table_or_warning py_engine two_listings (typed "macallan") start
              keyword_outcome keyword_state)
    as (es & Hout & _ & _ & _ & _ & Htable & _); [run_computes|].
  exists es. split; [exact Hout|]. by apply Htable.
Defined.

Lemma letter_case_is_ignored_witness :
  run_of two_listings (typed "macallan") = (inr keyword_outcome, keyword_state)
  ∧ run_of two_listings (typed "MACALLAN") = (inr capitals_outcome, capitals_state)
  ∧ rows keyword_outcome = rows capitals_outcome.
Proof.
  split_and!; [run_computes..|].
  apply (letter_case_is_ignored PyRe.nothing two_listings (typed "macallan")
           (typed "MACALLAN") start start keyword_outcome capitals_outcome
           keyword_state capitals_state);
    first [run_computes | reflexivity].
Defined.

Lemma default_view_hides_outliers_and_undated_witness :
  load_data with_undated = inr [hibiki; undated]
  ∧ run_of with_undated no_constraints = (inr undated_outcome, undated_state)
  ∧ undated ∉ rows undated_outcome.
Proof.
  split_and!; [reflexivity|run_computes|].
  intros Hin.
  apply (@default_view_hides_outliers_and_undated py_engine with_undated start
           undated_outcome undated_state [hibiki; undated]) in Hin
    as (_ & _ & _ & Hdated); [|reflexivity|run_computes].
  destruct Hdated as [d Hd]; [|discriminate Hd].
  exists hibiki. split; [left|by eexists].
Defined.
